(** * Carbon estimator and menu statistics of [generate_qr_menu.py]

    A shallow embedding of [CarbonCalculator.estimate_carbon_footprint],
    [QRMenuSystem.add_menu_item], and of the statistics computed by
    [QRMenuSystem.generate_html_menu] and [QRMenuSystem.generate_report].

    Python [float] is IEEE-754 binary64; it is embedded as Rocq's primitive
    [float], whose operations are the same correctly rounded binary64
    operations.  Python [str] is a sequence of Unicode code points. *)

From Stdlib Require Import ZArith List Bool Lia Floats String Ascii.
From Stdlib Require Import Permutation Sorted.
Import ListNotations.

Set Warnings "-inexact-float".

(** * The program *)

(** ** Python strings *)

Module PyStr.

Definition codepoint := N.
Definition str := list codepoint.

(** An ASCII literal of the source, as its code points. *)
Definition lit (s : string) : str :=
  map N_of_ascii (list_ascii_of_string s).

(** U+0131, LATIN SMALL LETTER DOTLESS I, of the Turkish keywords. *)
Definition dotless_i : codepoint := 305%N.

Fixpoint startswith (s prefix : str) : bool :=
  match prefix, s with
  | [], _ => true
  | _ :: _, [] => false
  | p :: prefix', c :: s' => N.eqb p c && startswith s' prefix'
  end.

(** [needle in s] *)
Fixpoint contains (s needle : str) : bool :=
  startswith s needle
  || match s with
     | [] => false
     | _ :: s' => contains s' needle
     end.

(** [any(k in s for k in keywords)] *)
Definition any_in (keywords : list str) (s : str) : bool :=
  existsb (contains s) keywords.

(** [str.lower] restricted to what is certain without the Unicode case
    tables: on a string of ASCII code points it maps [A]..[Z] to [a]..[z]
    and leaves everything else alone.  It only serves to run the program on
    concrete ASCII dish names; the general theorems hold for every
    lower-casing function. *)
Definition ascii_lower_cp (c : codepoint) : codepoint :=
  if (65 <=? c)%N && (c <=? 90)%N then (c + 32)%N else c.

Definition ascii_lower (s : str) : str := map ascii_lower_cp s.

End PyStr.
Import PyStr.

(** ** Python numbers and exceptions *)

Inductive exn := ZeroDivisionError | OSError.

Inductive result (A : Type) :=
| Ok (a : A)
| Raise (e : exn).
Arguments Ok {A} a.
Arguments Raise {A} e.

Definition bind {A B} (c : result A) (k : A -> result B) : result B :=
  match c with
  | Ok a => k a
  | Raise e => Raise e
  end.

Notation "x <- c ;; k" := (bind c (fun x => k))
  (at level 61, c at next level, right associativity).

Module PyFloat.

Open Scope float_scope.

(** Nearest integer to [n / 2^k], ties to even. *)
Definition div_pow2_half_even (n : Z) (k : Z) : Z :=
  let d := (2 ^ k)%Z in
  let q := (n / d)%Z in
  let r := (n mod d)%Z in
  match (2 * r ?= d)%Z with
  | Lt => q
  | Gt => (q + 1)%Z
  | Eq => if Z.even q then q else (q + 1)%Z
  end.

(** [round(x, 2)].  CPython rounds the exact binary value of [x] to two
    decimals, ties to even, and returns the binary64 nearest to that
    decimal; zeros, infinities and NaN come back unchanged.  Here [q] is the
    rounded value in hundredths, and the division of the integer [q] by
    [100] is the correctly rounded one of the binary64 specification. *)
Definition round2 (x : float) : float :=
  match Prim2SF x with
  | S754_finite s m e =>
      let q := if (0 <=? e)%Z then (Z.pos m * 100 * 2 ^ e)%Z
               else div_pow2_half_even (Z.pos m * 100) (- e) in
      let hundredths := match q with
                        | Zpos p => S754_finite s p 0
                        | _ => S754_zero s
                        end in
      SF2Prim (SFdiv prec emax hundredths (S754_finite false 100 0))
  | _ => x
  end.

(** [float(n)] for a Python int: the binary64 nearest to [n]. *)
Definition float_of_int (n : Z) : float :=
  SF2Prim (binary_normalize prec emax n 0 false).

(** [a / b] on Python ints.  The quotient is the correctly rounded one; for
    operands below [2^53], as every count of menu items is, it is the
    binary64 division of their exact conversions. *)
Definition truediv_int (a b : Z) : result float :=
  if (b =? 0)%Z then Raise ZeroDivisionError
  else Ok (float_of_int a / float_of_int b).

(** [x / n] for a float [x] and a Python int [n]. *)
Definition truediv_float_int (x : float) (n : Z) : result float :=
  if (n =? 0)%Z then Raise ZeroDivisionError
  else Ok (x / float_of_int n).

(** [sum(xs)] on floats: start from the int [0] and add from left to
    right.  (CPython 3.12 and later compensate the rounding errors of the
    running total; no theorem below depends on the value of a sum.) *)
Definition fsum (xs : list float) : float := fold_left add xs 0.

End PyFloat.
Import PyFloat.

Open Scope float_scope.

(** ** The estimator *)

(** The dictionary returned by [estimate_carbon_footprint]. *)
Module CarbonData.
Record t := mk {
  ingredients : list str;
  cooking_methods : list str;
  total_carbon : float;
  is_eco_friendly : bool
}.
End CarbonData.

(** [CarbonCalculator]: the two factor tables set up by [__init__]. *)
Record CarbonCalculator := {
  carbon_factors : list (str * float);
  cooking_factors : list (str * float)
}.

Definition CarbonCalculator_init : CarbonCalculator := {|
  carbon_factors :=
    [ (lit "beef", 27.0); (lit "lamb", 39.2); (lit "pork", 12.1);
      (lit "chicken", 6.9); (lit "fish", 6.1); (lit "salmon", 6.1);
      (lit "cheese", 13.5); (lit "milk", 3.2); (lit "butter", 23.8);
      (lit "eggs", 4.8);
      (lit "rice", 2.7); (lit "pasta", 0.9); (lit "bread", 0.9);
      (lit "vegetables", 2.0); (lit "tomatoes", 2.1); (lit "potatoes", 0.5);
      (lit "fruits", 1.1); (lit "olive_oil", 6.0); (lit "nuts", 2.3);
      (lit "beans", 2.0); (lit "quinoa", 1.5) ];
  cooking_factors :=
    [ (lit "oven", 2.1); (lit "stovetop", 1.8); (lit "grill", 3.5);
      (lit "deep_fry", 4.2); (lit "microwave", 0.6); (lit "steam", 1.0);
      (lit "raw", 0.0) ]
|}.

(** The locals [ingredients] and [total_carbon], threaded through the
    detection blocks. *)
Record acc := mk_acc {
  acc_ingredients : list str;
  acc_total : float
}.

(** Lines 52-53. *)
Definition acc_init : acc := {| acc_ingredients := []; acc_total := 0.0 |}.

(** [ingredients.append(tag); total_carbon += amount] *)
Definition add_ingredient (tag : str) (amount : float) (a : acc) : acc :=
  {| acc_ingredients := acc_ingredients a ++ [tag];
     acc_total := acc_total a + amount |}.

(** The keyword lists of the source, in source order. *)
Definition kw_beef := [lit "beef"; lit "steak"; lit "hamburger"].
Definition kw_chicken := [lit "chicken"; lit "tavuk"].
Definition kw_fish :=
  [lit "fish"; lit "salmon"; lit "bal" ++ [dotless_i] ++ lit "k"].
Definition kw_pork := [lit "pork"; lit "bacon"; lit "ham"].
Definition kw_lamb := [lit "lamb"; lit "kuzu"].
Definition kw_pasta := [lit "pasta"; lit "spaghetti"; lit "makarna"].
Definition kw_rice := [lit "rice"; lit "pilav"; lit "risotto"].
Definition kw_bread := [lit "sandwich"; lit "burger"; lit "bread"].
Definition kw_quinoa := [lit "quinoa"].
Definition kw_salad := [lit "salad"; lit "salata"; lit "vegetables"].
Definition kw_cheese := [lit "cheese"; lit "peynir"; lit "parmesan"].
Definition kw_grilled :=
  [lit "grilled"; [dotless_i] ++ lit "zgara"; lit "grill"].
Definition kw_fried :=
  [lit "fried"; lit "k" ++ [dotless_i] ++ lit "zartma"].
Definition kw_baked :=
  [lit "baked"; lit "roasted";
   lit "f" ++ [dotless_i] ++ lit "r" ++ [dotless_i] ++ lit "n"].
Definition kw_raw := [lit "salad"; lit "fresh"; lit "raw"].

(** Protein detection (lines 55-70). *)
Definition protein (dish_lower : str) (a : acc) : acc :=
  if any_in kw_beef dish_lower then
    add_ingredient (lit "beef") (27.0 * 0.25) a
  else if any_in kw_chicken dish_lower then
    add_ingredient (lit "chicken") (6.9 * 0.2) a
  else if any_in kw_fish dish_lower then
    add_ingredient (lit "fish") (6.1 * 0.18) a
  else if any_in kw_pork dish_lower then
    add_ingredient (lit "pork") (12.1 * 0.2) a
  else if any_in kw_lamb dish_lower then
    add_ingredient (lit "lamb") (39.2 * 0.2) a
  else a.

(** Carbs detection (lines 72-84). *)
Definition carbs (dish_lower : str) (a : acc) : acc :=
  if any_in kw_pasta dish_lower then
    add_ingredient (lit "pasta") (0.9 * 0.1) a
  else if any_in kw_rice dish_lower then
    add_ingredient (lit "rice") (2.7 * 0.1) a
  else if any_in kw_bread dish_lower then
    add_ingredient (lit "bread") (0.9 * 0.08) a
  else if any_in kw_quinoa dish_lower then
    add_ingredient (lit "quinoa") (1.5 * 0.1) a
  else a.

(** Vegetables (lines 86-92). *)
Definition vegetables (dish_lower : str) (a : acc) : acc :=
  if any_in kw_salad dish_lower then
    add_ingredient (lit "vegetables") (2.0 * 0.2) a
  else add_ingredient (lit "vegetables") (2.0 * 0.1) a.

(** Dairy (lines 94-97). *)
Definition dairy (dish_lower : str) (a : acc) : acc :=
  if any_in kw_cheese dish_lower then
    add_ingredient (lit "cheese") (13.5 * 0.05) a
  else a.

(** Cooking method detection (lines 99-118): the pair
    [(cooking_methods, cooking_carbon)].  The minutes are Python ints;
    [int / int] is the correctly rounded quotient, which for these small
    integers is the binary64 division of their exact conversions. *)
Definition cooking_time : float := 20.

Definition cooking (dish_lower : str) : list str * float :=
  if any_in kw_grilled dish_lower then
    ([lit "grill"], 3.5 * (cooking_time / 60))
  else if any_in kw_fried dish_lower then
    ([lit "deep_fry"], 4.2 * (15 / 60))
  else if any_in kw_baked dish_lower then
    ([lit "oven"], 2.1 * (30 / 60))
  else if any_in kw_raw dish_lower then
    ([lit "raw"], 0.0)
  else ([lit "stovetop"], 1.8 * (cooking_time / 60)).

(** Lines 120-127: add the cooking carbon and build the dictionary; the
    flag is computed from the sum, the stored total from its rounding. *)
Definition carbon_data (a : acc) (c : list str * float) : CarbonData.t :=
  let '(cooking_methods, cooking_carbon) := c in
  let total_carbon := acc_total a + cooking_carbon in
  {| CarbonData.ingredients := acc_ingredients a;
     CarbonData.cooking_methods := cooking_methods;
     CarbonData.total_carbon := round2 total_carbon;
     CarbonData.is_eco_friendly := total_carbon <? 2.0 |}.

(** ** Menu items and the menu system *)

Record MenuItem := {
  name : str;
  price : float;
  description : str;
  carbon_footprint : float;
  is_eco_friendly : bool;
  ingredients : list str;
  cooking_methods : list str
}.

Record QRMenuSystem := {
  restaurant_name : str;
  calculator : CarbonCalculator;
  menu_items : list MenuItem
}.

(** [QRMenuSystem.__init__] *)
Definition QRMenuSystem_init (restaurant_name : str) : QRMenuSystem :=
  {| restaurant_name := restaurant_name;
     calculator := CarbonCalculator_init;
     menu_items := [] |}.

Section Program.

(** [str.lower], a library function whose Unicode tables are not part of
    the program. *)
Variable lower : str -> str.

(** The locals [ingredients] and [total_carbon] after the dairy block
    (line 97). *)
Definition detect_ingredients (dish_name : str) : acc :=
  let dish_lower := lower dish_name in
  dairy dish_lower
    (vegetables dish_lower (carbs dish_lower (protein dish_lower acc_init))).

(** [total_carbon] after line 120, before it is rounded. *)
Definition raw_total_carbon (dish_name : str) : float :=
  acc_total (detect_ingredients dish_name) + snd (cooking (lower dish_name)).

(** [estimate_carbon_footprint(self, dish_name)].  The method reads no
    attribute of [self] and assigns none. *)
Definition estimate_carbon_footprint
    (self : CarbonCalculator) (dish_name : str) : CarbonData.t :=
  carbon_data (detect_ingredients dish_name) (cooking (lower dish_name)).

(** [add_menu_item(self, name, price, description)]: the returned item and
    the system afterwards.  [description or f"Delicious {name.lower()}"]
    takes the default exactly when [description] is the empty string.  The
    two [print] calls are left out. *)
Definition add_menu_item (self : QRMenuSystem)
    (name : str) (price : float) (description : str)
  : MenuItem * QRMenuSystem :=
  let carbon_data := estimate_carbon_footprint (calculator self) name in
  let item :=
    {| name := name;
       price := price;
       description := match description with
                      | [] => lit "Delicious " ++ lower name
                      | _ :: _ => description
                      end;
       carbon_footprint := CarbonData.total_carbon carbon_data;
       is_eco_friendly := CarbonData.is_eco_friendly carbon_data;
       ingredients := CarbonData.ingredients carbon_data;
       cooking_methods := CarbonData.cooking_methods carbon_data |} in
  (item,
   {| restaurant_name := restaurant_name self;
      calculator := calculator self;
      menu_items := menu_items self ++ [item] |}).

(** [create_sample_menu(self)] *)
Definition sample_items : list (str * float * str) :=
  [ (lit "Mediterranean Quinoa Bowl", 35.00,
     lit "Fresh quinoa with vegetables and herbs");
    (lit "Grilled Chicken Caesar Salad", 45.00,
     lit "Grilled chicken with romaine and parmesan");
    (lit "Classic Beef Burger", 55.00,
     lit "Beef patty with lettuce, tomato, cheese");
    (lit "Fresh Salmon with Herbs", 75.00,
     lit "Grilled salmon with seasonal herbs");
    (lit "Vegetarian Pasta Primavera", 40.00,
     lit "Pasta with fresh seasonal vegetables");
    (lit "Turkish Lamb Kebab", 65.00,
     lit "Traditional lamb kebab with rice");
    (lit "Organic Garden Salad", 25.00,
     lit "Fresh organic greens with olive oil");
    (lit "Mushroom Risotto", 50.00,
     lit "Creamy risotto with wild mushrooms");
    (lit "Fish and Chips", 48.00,
     lit "Beer battered fish with potato chips");
    (lit "Seasonal Fruit Bowl", 20.00,
     lit "Fresh seasonal fruits") ].

Definition create_sample_menu (self : QRMenuSystem) : QRMenuSystem :=
  fold_left
    (fun self '(name, price, description) =>
       snd (add_menu_item self name price description))
    sample_items self.

End Program.

(** ** Statistics *)

(** [sorted(items, key=key)] for float keys, on lists without a NaN key.
    The builtin is a stable sort that compares keys with [<] only; so does
    this insertion sort.  When no key is NaN the stable ascending
    arrangement is unique ([stable_sort_unique] below), whatever algorithm
    produces it, so the two agree.  With a NaN key [<] is no order and the
    builtin's merge strategy may arrange the list otherwise: what is
    stated of [sorted] about order or stability carries the hypothesis
    that no key is NaN. *)
Fixpoint insert_by {A} (key : A -> float) (x : A) (l : list A) : list A :=
  match l with
  | [] => [x]
  | y :: l' =>
      if key y <? key x then y :: insert_by key x l' else x :: y :: l'
  end.

Fixpoint sorted {A} (key : A -> float) (l : list A) : list A :=
  match l with
  | [] => []
  | x :: l' => insert_by key x (sorted key l')
  end.

(** The slices [l[:3]] and [l[-3:]]. *)
Definition first3 {A} (l : list A) : list A := firstn 3 l.
Definition last3 {A} (l : list A) : list A := skipn (List.length l - 3) l.

(** [len(l)] and [sum(1 for i in l if p(i))] as Python ints. *)
Definition len {A} (l : list A) : Z := Z.of_nat (List.length l).
Definition count {A} (p : A -> bool) (l : list A) : Z := len (filter p l).

(** The three list comprehensions of the report's CARBON DISTRIBUTION
    block (lines 299-301). *)
Definition is_low (i : MenuItem) : bool := carbon_footprint i <? 2.0.
Definition is_medium (i : MenuItem) : bool :=
  (2.0 <=? carbon_footprint i) && (carbon_footprint i <? 4.0).
Definition is_high (i : MenuItem) : bool := 4.0 <=? carbon_footprint i.

(** What [generate_html_menu] computes before it renders the items
    (lines 190-230).  The percentage is the first expression of the header
    template that can fail. *)
Record html_stats := {
  html_total_items : Z;
  html_eco_items : Z;
  html_average : float;
  html_sorted_items : list MenuItem;
  html_percentage : float
}.

(** Line 192: the average is guarded against the empty menu. *)
Definition html_avg_carbon (self : QRMenuSystem) : result float :=
  let total_items := len (menu_items self) in
  if (total_items >? 0)%Z then
    truediv_float_int (fsum (map carbon_footprint (menu_items self)))
      total_items
  else Ok 0.

(** Line 228: [eco_items/total_items*100], inside the header template. *)
Definition html_eco_percent (self : QRMenuSystem) : result float :=
  let total_items := len (menu_items self) in
  let eco_items := count is_eco_friendly (menu_items self) in
  ratio <- truediv_int eco_items total_items ;;
  Ok (ratio * 100).

Definition html_statistics (self : QRMenuSystem) : result html_stats :=
  let total_items := len (menu_items self) in
  let eco_items := count is_eco_friendly (menu_items self) in
  avg_carbon <- html_avg_carbon self ;;
  let sorted_items := sorted carbon_footprint (menu_items self) in
  eco_percent <- html_eco_percent self ;;
  Ok {| html_total_items := total_items;
        html_eco_items := eco_items;
        html_average := avg_carbon;
        html_sorted_items := sorted_items;
        html_percentage := eco_percent |}.

(** [generate_html_menu(self, filename)]: the returned string.  [written]
    is the outcome of opening and writing the file (lines 264-265); the
    [except Exception] clause turns every exception into the empty
    string. *)
Definition generate_html_menu (self : QRMenuSystem) (filename : str)
    (written : result unit) : str :=
  match (_ <- html_statistics self ;; written) with
  | Ok _ => filename
  | Raise _ => []
  end.

(** What [generate_report] computes (lines 277-310); [None] is the early
    [return ""] on an empty menu. *)
Record report_stats := {
  total_items : Z;
  eco_items : Z;
  avg_carbon : float;
  lowest_carbon : list MenuItem;
  highest_carbon : list MenuItem;
  eco_percent : float;
  low_carbon : Z;
  medium_carbon : Z;
  high_carbon : Z
}.

Definition report_statistics (self : QRMenuSystem)
  : result (option report_stats) :=
  let total_items := len (menu_items self) in
  if (total_items =? 0)%Z then Ok None
  else
    let eco_items := count is_eco_friendly (menu_items self) in
    avg_carbon <-
      truediv_float_int (fsum (map carbon_footprint (menu_items self)))
        total_items ;;
    let sorted_items := sorted carbon_footprint (menu_items self) in
    let lowest_carbon := first3 sorted_items in
    let highest_carbon := last3 sorted_items in
    ratio <- truediv_int eco_items total_items ;;
    Ok (Some {| total_items := total_items;
                eco_items := eco_items;
                avg_carbon := avg_carbon;
                lowest_carbon := lowest_carbon;
                highest_carbon := highest_carbon;
                eco_percent := ratio * 100;
                low_carbon := len (filter is_low (menu_items self));
                medium_carbon := len (filter is_medium (menu_items self));
                high_carbon := len (filter is_high (menu_items self)) |}).

(** [generate_report(self, filename)]: the returned string. *)
Definition generate_report (self : QRMenuSystem) (filename : str)
    (written : result unit) : str :=
  match report_statistics self with
  | Ok None => []
  | Ok (Some _) =>
      match written with
      | Ok _ => filename
      | Raise _ => []
      end
  | Raise _ => []
  end.

(** * Notions used in the statements *)

(** ** Outcomes of the detection blocks

    The estimator looks at the dish name only through its [any(...)]
    tests, so each block has finitely many outcomes. *)

Definition protein_outcomes (a : acc) : list acc :=
  [ add_ingredient (lit "beef") (27.0 * 0.25) a;
    add_ingredient (lit "chicken") (6.9 * 0.2) a;
    add_ingredient (lit "fish") (6.1 * 0.18) a;
    add_ingredient (lit "pork") (12.1 * 0.2) a;
    add_ingredient (lit "lamb") (39.2 * 0.2) a;
    a ].

Definition carbs_outcomes (a : acc) : list acc :=
  [ add_ingredient (lit "pasta") (0.9 * 0.1) a;
    add_ingredient (lit "rice") (2.7 * 0.1) a;
    add_ingredient (lit "bread") (0.9 * 0.08) a;
    add_ingredient (lit "quinoa") (1.5 * 0.1) a;
    a ].

Definition vegetables_outcomes (a : acc) : list acc :=
  [ add_ingredient (lit "vegetables") (2.0 * 0.2) a;
    add_ingredient (lit "vegetables") (2.0 * 0.1) a ].

Definition dairy_outcomes (a : acc) : list acc :=
  [ add_ingredient (lit "cheese") (13.5 * 0.05) a; a ].

Definition cooking_outcomes : list (list str * float) :=
  [ ([lit "grill"], 3.5 * (cooking_time / 60));
    ([lit "deep_fry"], 4.2 * (15 / 60));
    ([lit "oven"], 2.1 * (30 / 60));
    ([lit "raw"], 0.0);
    ([lit "stovetop"], 1.8 * (cooking_time / 60)) ].

Definition acc_outcomes : list acc :=
  flat_map dairy_outcomes
    (flat_map vegetables_outcomes
       (flat_map carbs_outcomes (protein_outcomes acc_init))).

(** ** Menus the program can build

    [__init__] followed by any number of [add_menu_item] calls. *)

Inductive built (lower : str -> str) : QRMenuSystem -> Prop :=
| built_init (restaurant_name : str) :
    built lower (QRMenuSystem_init restaurant_name)
| built_add (self : QRMenuSystem) (n : str) (p : float) (d : str) :
    built lower self ->
    built lower (snd (add_menu_item lower self n p d)).

(** The program's own sample menu, built by ten calls of
    [add_menu_item]. *)
Definition sample_menu : QRMenuSystem :=
  create_sample_menu ascii_lower (QRMenuSystem_init (lit "Green Bistro")).

(** ** Ascending and stable arrangements *)

Section SortNotions.

Context {A : Type} (key : A -> float).

(** [a] may stand before [b] in an ascending arrangement. *)
Definition key_le (a b : A) : Prop := (key a <=? key b) = true.

(** The elements whose key equals [k], in order: stability is the
    invariance of every one of these subsequences. *)
Definition with_key (k : float) (l : list A) : list A :=
  filter (fun a => key a =? k) l.

(** No key is NaN. *)
Definition numeric (l : list A) : Prop :=
  Forall (fun a => is_nan (key a) = false) l.

End SortNotions.

(** The number of buckets of the report that count an item. *)
Definition buckets_of (i : MenuItem) : Z :=
  (Z.b2z (is_low i) + Z.b2z (is_medium i) + Z.b2z (is_high i))%Z.

(** ** The order of binary64

    Python compares floats as IEEE-754 does.  Every float that is not NaN
    is ranked by a triple of integers, ordered lexicographically, so that
    the facts needed about [<], [<=] and [==] become linear arithmetic. *)

Definition rank (x : spec_float) : Z * Z * Z :=
  match x with
  | S754_zero _ | S754_nan => (0, 0, 0)%Z
  | S754_infinity false => (2, 0, 0)%Z
  | S754_infinity true => (-2, 0, 0)%Z
  | S754_finite false m e => (1, e, Z.pos m)%Z
  | S754_finite true m e => (-1, - e, Z.neg m)%Z
  end.

Definition lex3 (a b : Z * Z * Z) : comparison :=
  let '(a1, a2, a3) := a in
  let '(b1, b2, b3) := b in
  match (a1 ?= b1)%Z with
  | Eq => match (a2 ?= b2)%Z with
          | Eq => (a3 ?= b3)%Z
          | c => c
          end
  | c => c
  end.

Definition rank_lt (a b : Z * Z * Z) : Prop :=
  let '(a1, a2, a3) := a in
  let '(b1, b2, b3) := b in
  (a1 < b1 \/ (a1 = b1 /\ (a2 < b2 \/ (a2 = b2 /\ a3 < b3))))%Z.

Definition frank (x : float) : Z * Z * Z := rank (Prim2SF x).

(** * The rest of the program *)

(** ** Rendering of one item in the HTML menu (lines 234-250) *)

(** U+1F331, the seedling shown beside eco-friendly items. *)
Definition seedling : codepoint := 127793%N.

(** [sep.join(l)] *)
Fixpoint join (sep : str) (l : list str) : str :=
  match l with
  | [] => []
  | [x] => x
  | x :: l' => x ++ sep ++ join sep l'
  end.

(** The values interpolated for one item besides its stored fields: the
    two CSS classes, the icon, and the ingredients line, which shows the
    first three ingredients only. *)
Record html_item := {
  eco_class : str;
  carbon_class : str;
  eco_icon : str;
  shown_ingredients : list str;
  ingredients_line : str
}.

Definition render_item (item : MenuItem) : html_item :=
  {| eco_class := if is_eco_friendly item then lit "eco" else [];
     carbon_class :=
       if 4.0 <? carbon_footprint item then lit "carbon-high" else [];
     eco_icon := if is_eco_friendly item then [seedling] else [];
     shown_ingredients := firstn 3 (ingredients item);
     ingredients_line := join (lit ", ") (firstn 3 (ingredients item)) |}.

(** ** The loops of [create_sample_menu] and [main] *)

Definition str_eq_dec : forall a b : str, {a = b} + {a <> b} :=
  list_eq_dec N.eq_dec.

Section Main.

Variable lower : str -> str.

(** [str.strip], and [float] applied to a string ([None] stands for
    [ValueError]): library functions, taken as they come. *)
Variable strip : str -> str.
Variable float_of_str : str -> option float.

(** The [for] loop of [create_sample_menu] (lines 349-350), over any list
    of entries. *)
Definition add_menu_items (self : QRMenuSystem)
    (entries : list (str * float * str)) : QRMenuSystem :=
  fold_left
    (fun self '(name, price, description) =>
       snd (add_menu_item lower self name price description))
    entries self.

(** The [while True] loop of [main] (lines 374-383) on the lines that
    [input] will return, giving the system and the lines left over when
    the loop breaks.  An empty name breaks; a price that does not parse
    is reported and the loop goes on without asking for a description.
    [None]: the input ran out before an empty name came ([input] raises
    [EOFError], which nothing catches). *)
Fixpoint custom_items (inputs : list str) (system : QRMenuSystem)
  : option (QRMenuSystem * list str) :=
  match inputs with
  | [] => None
  | line1 :: rest1 =>
      let name := strip line1 in
      match name with
      | [] => Some (system, rest1)
      | _ :: _ =>
          match rest1 with
          | [] => None
          | line2 :: rest2 =>
              match float_of_str line2 with
              | None => custom_items rest2 system
              | Some price =>
                  match rest2 with
                  | [] => None
                  | line3 :: rest3 =>
                      let description := strip line3 in
                      custom_items rest3
                        (snd (add_menu_item lower system name price
                                description))
                  end
              end
          end
      end
  end.

(** The menu that [main] hands to the three generators (lines 357-386):
    the restaurant name defaults to "Green Bistro", choice "2" runs the
    loop above and any other choice creates the sample menu. *)
Definition main_menu (inputs : list str) : option QRMenuSystem :=
  match inputs with
  | line0 :: line1 :: rest =>
      let restaurant_name :=
        match strip line0 with
        | [] => lit "Green Bistro"
        | _ :: _ => strip line0
        end in
      let system := QRMenuSystem_init restaurant_name in
      let choice := strip line1 in
      if str_eq_dec choice (lit "2") then
        option_map fst (custom_items rest system)
      else Some (create_sample_menu lower system)
  | _ => None
  end.

End Main.

(** ** Notions used in the further properties *)

(** Decidable membership and equality of tags. *)
Definition mem (tag : str) (l : list str) : bool :=
  if in_dec str_eq_dec tag l then true else false.

Definition same (a b : list str) : bool :=
  if list_eq_dec str_eq_dec a b then true else false.

(** Names made of ASCII code points. *)
Definition is_ascii (s : str) : Prop := Forall (fun c => (c < 128)%N) s.

(** What every stored item satisfies: a footprint between 0.2 and 10.35
    that is never exactly 4.0; a flag implied by a footprint below 2.0 and
    implying one of at most 2.0; vegetables among the first three of at
    most four ingredients; one cooking method; a description that is not
    empty. *)
Definition item_ok (i : MenuItem) : Prop :=
  (0.2 <=? carbon_footprint i) = true
  /\ (carbon_footprint i <=? 10.35) = true
  /\ (carbon_footprint i =? 4.0) = false
  /\ (is_low i = true -> is_eco_friendly i = true)
  /\ (is_eco_friendly i = true -> (carbon_footprint i <=? 2.0) = true)
  /\ In (lit "vegetables") (firstn 3 (ingredients i))
  /\ (List.length (ingredients i) <= 4)%nat
  /\ List.length (cooking_methods i) = 1%nat
  /\ description i <> [].

(** * Proofs *)

(** ** Comparisons of binary64 *)

Lemma lex3_spec a b :
  match lex3 a b with
  | Lt => rank_lt a b
  | Eq => a = b
  | Gt => rank_lt b a
  end.
Proof.
  destruct a as [[a1 a2] a3], b as [[b1 b2] b3]. unfold lex3, rank_lt.
  destruct (Z.compare_spec a1 b1); [ | lia | lia ].
  destruct (Z.compare_spec a2 b2); [ | lia | lia ].
  destruct (Z.compare_spec a3 b3); [ congruence | lia | lia ].
Qed.

Lemma rank_lt_irrefl a : ~ rank_lt a a.
Proof. destruct a as [[a1 a2] a3]. unfold rank_lt. lia. Qed.

Lemma rank_lt_trans a b c : rank_lt a b -> rank_lt b c -> rank_lt a c.
Proof.
  destruct a as [[a1 a2] a3], b as [[b1 b2] b3], c as [[c1 c2] c3].
  unfold rank_lt. lia.
Qed.

Lemma rank_lt_total a b : rank_lt a b \/ a = b \/ rank_lt b a.
Proof. pose proof (lex3_spec a b). destruct (lex3 a b); tauto. Qed.

Lemma SFcompare_rank x y :
  x <> S754_nan -> y <> S754_nan ->
  SFcompare x y = Some (lex3 (rank x) (rank y)).
Proof.
  intros Hx Hy.
  destruct x as [sx | sx | | sx mx ex], y as [sy | sy | | sy my ey];
    try congruence; try destruct sx; try destruct sy; try reflexivity;
    cbn -[Z.compare].
  change (-1 ?= -1)%Z with Eq.
  rewrite Z.compare_opp, (Z.compare_antisym ex ey).
  destruct (ex ?= ey)%Z; reflexivity.
Qed.

Lemma SFcompare_cases p q :
  p <> S754_nan -> q <> S754_nan ->
  (SFcompare p q = Some Lt /\ rank_lt (rank p) (rank q))
  \/ (SFcompare p q = Some Eq /\ rank p = rank q)
  \/ (SFcompare p q = Some Gt /\ rank_lt (rank q) (rank p)).
Proof.
  intros Hp Hq. rewrite SFcompare_rank by assumption.
  pose proof (lex3_spec (rank p) (rank q)) as L.
  destruct (lex3 (rank p) (rank q)); tauto.
Qed.

Lemma SFcompare_nan p q :
  p = S754_nan \/ q = S754_nan -> SFcompare p q = None.
Proof. intros [-> | ->]; [ | destruct p ]; reflexivity. Qed.

Lemma spec_float_nan_dec (p : spec_float) : {p = S754_nan} + {p <> S754_nan}.
Proof. destruct p; (left; reflexivity) || (right; discriminate). Qed.

Ltac compare_cases p q :=
  let Hp := fresh "Hp" in
  let Hq := fresh "Hq" in
  let C := fresh "C" in
  let L := fresh "L" in
  destruct (spec_float_nan_dec p) as [Hp | Hp];
  [ rewrite (SFcompare_nan p q (or_introl Hp))
  | destruct (spec_float_nan_dec q) as [Hq | Hq];
    [ rewrite (SFcompare_nan p q (or_intror Hq))
    | pose proof (rank_lt_irrefl (rank p));
      pose proof (rank_lt_irrefl (rank q));
      pose proof (rank_lt_trans (rank p) (rank q) (rank p));
      destruct (SFcompare_cases p q Hp Hq) as [[C L] | [[C L] | [C L]]];
      rewrite C; clear C ] ].

Lemma is_nan_Prim2SF x : is_nan x = false <-> Prim2SF x <> S754_nan.
Proof.
  unfold is_nan. rewrite FloatAxioms.eqb_spec. unfold SFeqb.
  compare_cases (Prim2SF x) (Prim2SF x); cbn; intuition congruence.
Qed.

(** The three comparisons, read on ranks. *)
Lemma ltb_rank x y :
  (x <? y) = true
  <-> is_nan x = false /\ is_nan y = false /\ rank_lt (frank x) (frank y).
Proof.
  rewrite FloatAxioms.ltb_spec, !is_nan_Prim2SF. unfold SFltb, frank.
  compare_cases (Prim2SF x) (Prim2SF y); try rewrite L in *;
    intuition congruence.
Qed.

Lemma leb_rank x y :
  (x <=? y) = true
  <-> is_nan x = false /\ is_nan y = false /\ ~ rank_lt (frank y) (frank x).
Proof.
  rewrite FloatAxioms.leb_spec, !is_nan_Prim2SF. unfold SFleb, frank.
  compare_cases (Prim2SF x) (Prim2SF y); try rewrite L in *;
    intuition congruence.
Qed.

Lemma eqb_rank x y :
  (x =? y) = true
  <-> is_nan x = false /\ is_nan y = false /\ frank x = frank y.
Proof.
  rewrite FloatAxioms.eqb_spec, !is_nan_Prim2SF. unfold SFeqb, frank.
  compare_cases (Prim2SF x) (Prim2SF y);
    split; intros E; try discriminate E; try tauto;
    destruct E as (_ & _ & R); try rewrite R in *; tauto.
Qed.

Lemma leb_not_nan x y :
  (x <=? y) = true -> is_nan x = false /\ is_nan y = false.
Proof. rewrite leb_rank. tauto. Qed.

Lemma ltb_negb_leb x y :
  is_nan x = false -> is_nan y = false -> (x <? y) = negb (y <=? x).
Proof.
  intros Hx Hy.
  pose proof (ltb_rank x y) as L. pose proof (leb_rank y x) as R.
  destruct (x <? y), (y <=? x); cbn; try reflexivity; exfalso.
  - apply R; [ reflexivity | ]. apply L. reflexivity.
  - assert (true = true) as E by reflexivity.
    assert (~ rank_lt (frank x) (frank y)) as N.
    { intros H. assert (false = true) by (apply L; tauto). discriminate. }
    assert (false = true) by (apply R; tauto). discriminate.
Qed.

Lemma leb_trans x y z :
  (x <=? y) = true -> (y <=? z) = true -> (x <=? z) = true.
Proof.
  rewrite !leb_rank. intros (Hx & Hy & A) (_ & Hz & B).
  repeat split; try assumption. intros C.
  destruct (rank_lt_total (frank x) (frank y)) as [H | [H | H]].
  - apply B. exact (rank_lt_trans _ _ _ C H).
  - rewrite H in C. exact (B C).
  - exact (A H).
Qed.

Lemma leb_refl x : is_nan x = false -> (x <=? x) = true.
Proof.
  intros H. apply leb_rank. repeat split; try assumption.
  apply rank_lt_irrefl.
Qed.

Lemma eqb_refl x : is_nan x = false -> (x =? x) = true.
Proof. intros H. apply eqb_rank. tauto. Qed.

Lemma leb_antisym x y :
  (x <=? y) = true -> (y <=? x) = true -> (x =? y) = true.
Proof.
  rewrite !leb_rank, eqb_rank. intros (Hx & Hy & A) (_ & _ & B).
  repeat split; try assumption.
  destruct (rank_lt_total (frank x) (frank y)) as [H | [H | H]]; tauto.
Qed.

Lemma eqb_leb x y : (x =? y) = true -> (x <=? y) = true.
Proof.
  rewrite leb_rank, eqb_rank. intros (Hx & Hy & E).
  repeat split; try assumption. rewrite E. apply rank_lt_irrefl.
Qed.

Lemma eqb_sym x y : (x =? y) = (y =? x).
Proof.
  pose proof (eqb_rank x y) as A. pose proof (eqb_rank y x) as B.
  destruct (x =? y), (y =? x); try reflexivity.
  - symmetry. apply B. destruct A as [A _]. specialize (A eq_refl).
    intuition congruence.
  - apply A. destruct B as [B _]. specialize (B eq_refl).
    intuition congruence.
Qed.

Lemma eqb_trans x y z :
  (x =? y) = true -> (y =? z) = true -> (x =? z) = true.
Proof. rewrite !eqb_rank. intuition congruence. Qed.

(** An element that [<] lets pass cannot carry the key being filtered. *)
Lemma ltb_eqb_false x y k :
  (y <? x) = true -> (x =? k) = true -> (y =? k) = false.
Proof.
  rewrite ltb_rank, eqb_rank. intros (_ & _ & L) (_ & _ & E).
  destruct (y =? k) eqn:Y; [ exfalso | reflexivity ].
  apply eqb_rank in Y. destruct Y as (_ & _ & Y).
  rewrite Y, <- E in L. exact (rank_lt_irrefl _ L).
Qed.

Lemma eqb_ltb_false x y : (x =? y) = true -> (y <? x) = false.
Proof.
  intros E. destruct (y <? x) eqn:L; [ exfalso | reflexivity ].
  apply eqb_rank in E. apply ltb_rank in L.
  destruct E as (_ & _ & E), L as (_ & _ & L).
  rewrite E in L. exact (rank_lt_irrefl _ L).
Qed.

(** ** Case analysis on the keyword tests *)

Ltac decide_tests :=
  repeat (match goal with
          | |- context [if any_in ?k ?s then _ else _] =>
              destruct (any_in k s)
          end; cbv beta iota).

Lemma protein_outcome dl a : In (protein dl a) (protein_outcomes a).
Proof. unfold protein; decide_tests; cbn [In protein_outcomes]; tauto. Qed.

Lemma carbs_outcome dl a : In (carbs dl a) (carbs_outcomes a).
Proof. unfold carbs; decide_tests; cbn [In carbs_outcomes]; tauto. Qed.

Lemma vegetables_outcome dl a : In (vegetables dl a) (vegetables_outcomes a).
Proof.
  unfold vegetables; decide_tests; cbn [In vegetables_outcomes]; tauto.
Qed.

Lemma dairy_outcome dl a : In (dairy dl a) (dairy_outcomes a).
Proof. unfold dairy; decide_tests; cbn [In dairy_outcomes]; tauto. Qed.

Lemma cooking_outcome dl : In (cooking dl) cooking_outcomes.
Proof. unfold cooking; decide_tests; cbn [In cooking_outcomes]; tauto. Qed.

Lemma detect_ingredients_outcome lower s :
  In (detect_ingredients lower s) acc_outcomes.
Proof.
  unfold detect_ingredients, acc_outcomes.
  repeat (apply in_flat_map; eexists; split;
          [ | first [ apply dairy_outcome | apply vegetables_outcome
                    | apply carbs_outcome ] ]).
  apply protein_outcome.
Qed.

(** A boolean check that passes on every combination of outcomes holds of
    every run of the estimator. *)
Lemma estimator_forall (q : CarbonData.t -> bool) :
  forallb (fun a => forallb (fun c => q (carbon_data a c)) cooking_outcomes)
    acc_outcomes = true ->
  forall lower self s, q (estimate_carbon_footprint lower self s) = true.
Proof.
  intros H lower self s.
  rewrite forallb_forall in H.
  specialize (H _ (detect_ingredients_outcome lower s)).
  rewrite forallb_forall in H.
  apply H, cooking_outcome.
Qed.

(** ** The estimator: flag, bounds and shape of the result *)



(** The least stored total is that of the smaller vegetable portion with
    no cooking. *)
Lemma total_carbon_bounds lower self s :
  (0.2 <=? CarbonData.total_carbon (estimate_carbon_footprint lower self s))
  = true
  /\ (0.0 <? CarbonData.total_carbon (estimate_carbon_footprint lower self s))
     = true.
Proof.
  pose proof (estimator_forall
    (fun r => (0.2 <=? CarbonData.total_carbon r)
              && (0.0 <? CarbonData.total_carbon r))) as H.
  specialize (H ltac:(vm_compute; reflexivity) lower self s).
  apply andb_true_iff in H. exact H.
Qed.

(** C9: the stored total is never below 0.2, which is the vegetable
    contribution 2.0 * 0.1, hence it is strictly positive; the name
    "fresh", which only matches a raw-cooking keyword, attains 0.2. *)
Theorem total_carbon_at_least_vegetables :
  (forall (lower : str -> str) (self : CarbonCalculator) (s : str),
      let r := estimate_carbon_footprint lower self s in
      (0.2 <=? CarbonData.total_carbon r) = true
      /\ (0.0 <? CarbonData.total_carbon r) = true)
  /\ 2.0 * 0.1 = 0.2
  /\ (let r := estimate_carbon_footprint ascii_lower CarbonCalculator_init
                 (lit "fresh") in
      CarbonData.ingredients r = [lit "vegetables"]
      /\ CarbonData.cooking_methods r = [lit "raw"]
      /\ CarbonData.total_carbon r = 0.2).
Proof.
  split; [ | split ].
  - intros lower self s r. apply total_carbon_bounds.
  - reflexivity.
  - vm_compute. repeat split.
Qed.

(** Every block after the first only appends to [ingredients]. *)
Lemma add_ingredient_extends tag amount a :
  exists rest, acc_ingredients (add_ingredient tag amount a)
               = acc_ingredients a ++ rest.
Proof. exists [tag]. reflexivity. Qed.

Lemma extends_refl (a : acc) :
  exists rest, acc_ingredients a = acc_ingredients a ++ rest.
Proof. exists []. symmetry. apply app_nil_r. Qed.

Lemma carbs_extends dl a :
  exists rest, acc_ingredients (carbs dl a) = acc_ingredients a ++ rest.
Proof.
  unfold carbs; decide_tests;
    first [ apply add_ingredient_extends | apply extends_refl ].
Qed.

Lemma vegetables_extends dl a :
  exists rest, acc_ingredients (vegetables dl a) = acc_ingredients a ++ rest.
Proof. unfold vegetables; decide_tests; apply add_ingredient_extends. Qed.

Lemma dairy_extends dl a :
  exists rest, acc_ingredients (dairy dl a) = acc_ingredients a ++ rest.
Proof.
  unfold dairy; decide_tests;
    first [ apply add_ingredient_extends | apply extends_refl ].
Qed.

Lemma detect_ingredients_extends lower s :
  exists rest,
    acc_ingredients (detect_ingredients lower s)
    = acc_ingredients (protein (lower s) acc_init) ++ rest.
Proof.
  unfold detect_ingredients.
  destruct (dairy_extends (lower s)
              (vegetables (lower s)
                 (carbs (lower s) (protein (lower s) acc_init)))) as [r3 E3].
  destruct (vegetables_extends (lower s)
              (carbs (lower s) (protein (lower s) acc_init))) as [r2 E2].
  destruct (carbs_extends (lower s) (protein (lower s) acc_init)) as [r1 E1].
  exists (r1 ++ r2 ++ r3).
  rewrite E3, E2, E1, <- !app_assoc. reflexivity.
Qed.

(** The beef branch is the first one tested: a beef keyword decides the
    protein block whatever else the name contains. *)
Lemma protein_beef dl :
  any_in kw_beef dl = true ->
  protein dl acc_init
  = {| acc_ingredients := [lit "beef"]; acc_total := 6.75 |}.
Proof. intros H. unfold protein. rewrite H. vm_compute. reflexivity. Qed.

(** C6: a name with a beef keyword and none of the other protein keywords
    has "beef" as first ingredient, and the total after the protein block,
    from which the later blocks go on, is exactly 27.0 * 0.25 = 6.75. *)
Theorem beef_first_and_contributes_6_75 :
  forall (lower : str -> str) (self : CarbonCalculator) (s : str),
    any_in kw_beef (lower s) = true ->
    any_in (kw_chicken ++ kw_fish ++ kw_pork ++ kw_lamb) (lower s) = false ->
    let dish_lower := lower s in
    hd_error (CarbonData.ingredients (estimate_carbon_footprint lower self s))
    = Some (lit "beef")
    /\ acc_total (protein dish_lower acc_init) = 27.0 * 0.25
    /\ 27.0 * 0.25 = 6.75
    /\ raw_total_carbon lower s
       = acc_total
           (dairy dish_lower
              (vegetables dish_lower
                 (carbs dish_lower
                    {| acc_ingredients := [lit "beef"];
                       acc_total := 6.75 |})))
         + snd (cooking dish_lower).
Proof.
  intros lower self s Hbeef _ dish_lower.
  pose proof (protein_beef dish_lower Hbeef) as P.
  repeat split.
  - unfold estimate_carbon_footprint, carbon_data.
    destruct (cooking (lower s)) as [methods carbon]. cbn.
    destruct (detect_ingredients_extends lower s) as [rest E].
    rewrite E. fold dish_lower. rewrite P. reflexivity.
  - rewrite P. vm_compute. reflexivity.
  - unfold raw_total_carbon, detect_ingredients. fold dish_lower.
    rewrite P. reflexivity.
Qed.

Lemma beef_first_and_contributes_6_75_witness :
  hd_error
    (CarbonData.ingredients
       (estimate_carbon_footprint ascii_lower CarbonCalculator_init
          (lit "Beef Stew")))
  = Some (lit "beef").
Proof.
  apply (beef_first_and_contributes_6_75 ascii_lower CarbonCalculator_init
           (lit "Beef Stew")).
  - vm_compute. reflexivity.
  - vm_compute. reflexivity.
Defined.

(** C4: the worked example.  The only fact about [str.lower] it needs is
    the lower-casing of this one ASCII name. *)
Theorem grilled_chicken_caesar_salad :
  forall (lower : str -> str) (self : CarbonCalculator),
    lower (lit "Grilled Chicken Caesar Salad")
    = lit "grilled chicken caesar salad" ->
    let r := estimate_carbon_footprint lower self
               (lit "Grilled Chicken Caesar Salad") in
    CarbonData.ingredients r = [lit "chicken"; lit "vegetables"]
    /\ CarbonData.cooking_methods r = [lit "grill"]
    /\ CarbonData.total_carbon r
       = round2 (6.9 * 0.20 + 2.0 * 0.20 + 3.5 * (20 / 60))
    /\ CarbonData.total_carbon r = 2.95
    /\ CarbonData.is_eco_friendly r = false.
Proof.
  intros lower self E r. subst r.
  unfold estimate_carbon_footprint, raw_total_carbon, detect_ingredients.
  rewrite E. vm_compute. repeat split.
Qed.

Lemma grilled_chicken_caesar_salad_witness :
  CarbonData.total_carbon
    (estimate_carbon_footprint ascii_lower CarbonCalculator_init
       (lit "Grilled Chicken Caesar Salad")) = 2.95.
Proof.
  apply (grilled_chicken_caesar_salad ascii_lower CarbonCalculator_init).
  vm_compute. reflexivity.
Defined.

(** The vegetables block appends its tag on both branches, and the dairy
    block keeps what is there. *)
Lemma vegetables_adds_tag dl a :
  In (lit "vegetables") (acc_ingredients (vegetables dl a)).
Proof.
  unfold vegetables; decide_tests; cbn [acc_ingredients add_ingredient];
    apply in_or_app; right; left; reflexivity.
Qed.

Lemma dairy_keeps dl a tag :
  In tag (acc_ingredients a) -> In tag (acc_ingredients (dairy dl a)).
Proof.
  intros H. destruct (dairy_extends dl a) as [rest E]. rewrite E.
  apply in_or_app. left. exact H.
Qed.

(** C7: "vegetables" is always among the ingredients, and there is exactly
    one cooking method, one of the five tags. *)
Theorem vegetables_and_one_cooking_method :
  forall (lower : str -> str) (self : CarbonCalculator) (s : str),
    let r := estimate_carbon_footprint lower self s in
    In (lit "vegetables") (CarbonData.ingredients r)
    /\ List.length (CarbonData.cooking_methods r) = 1%nat
    /\ exists m, CarbonData.cooking_methods r = [m]
                 /\ In m [lit "grill"; lit "deep_fry"; lit "oven";
                          lit "raw"; lit "stovetop"].
Proof.
  intros lower self s r. subst r.
  unfold estimate_carbon_footprint, carbon_data.
  pose proof (cooking_outcome (lower s)) as Hc.
  destruct (cooking (lower s)) as [methods carbon].
  cbn [CarbonData.ingredients CarbonData.cooking_methods].
  split.
  - unfold detect_ingredients. apply dairy_keeps, vegetables_adds_tag.
  - cbn [In cooking_outcomes] in Hc.
    destruct Hc as [H | [H | [H | [H | [H | []]]]]];
      injection H as <- _; (split; [ reflexivity | ]);
      eexists; (split; [ reflexivity | ]); cbn [In]; tauto.
Qed.

(** On the empty string every test fails when [lower] keeps it empty: the
    default branches give vegetables on the stovetop. *)
Lemma estimate_empty_name lower self :
  lower [] = [] ->
  estimate_carbon_footprint lower self []
  = {| CarbonData.ingredients := [lit "vegetables"];
       CarbonData.cooking_methods := [lit "stovetop"];
       CarbonData.total_carbon := 0.8;
       CarbonData.is_eco_friendly := true |}.
Proof.
  intros E. unfold estimate_carbon_footprint, detect_ingredients.
  rewrite E. vm_compute. reflexivity.
Qed.

(** ** The menu system *)

(** C10: [add_menu_item] appends exactly the returned item, keeps the
    items already stored, the restaurant name and the calculator, and
    defaults an empty description to "Delicious " and the lower-cased
    name. *)
Theorem add_menu_item_appends_one :
  forall (lower : str -> str) (self : QRMenuSystem)
         (n : str) (p : float) (d : str),
    let item := fst (add_menu_item lower self n p d) in
    let self' := snd (add_menu_item lower self n p d) in
    menu_items self' = menu_items self ++ [item]
    /\ List.length (menu_items self') = S (List.length (menu_items self))
    /\ (forall k i, nth_error (menu_items self) k = Some i ->
                    nth_error (menu_items self') k = Some i)
    /\ restaurant_name self' = restaurant_name self
    /\ calculator self' = calculator self
    /\ name item = n
    /\ price item = p
    /\ (d = [] -> description item = lit "Delicious " ++ lower n)
    /\ (d <> [] -> description item = d).
Proof.
  intros lower self n p d item self'.
  assert (E : menu_items self' = menu_items self ++ [item]) by reflexivity.
  split; [ exact E | ].
  split; [ rewrite E, length_app; cbn; lia | ].
  split.
  { intros k i H. rewrite E, nth_error_app1; [ exact H | ].
    apply nth_error_Some. congruence. }
  repeat split.
  - intros ->. reflexivity.
  - intros H. subst item. cbn. destruct d; [ congruence | reflexivity ].
Qed.

(** Every footprint stored by [add_menu_item] is a total of the
    estimator, so every menu the program builds holds numbers that are at
    least 0.2. *)
Lemma built_footprints lower self :
  built lower self ->
  Forall (fun i => (0.2 <=? carbon_footprint i) = true) (menu_items self).
Proof.
  induction 1 as [ restaurant | self n p d _ IH ].
  - constructor.
  - cbn [add_menu_item snd menu_items]. apply Forall_app. split.
    + exact IH.
    + constructor; [ | constructor ].
      cbn [carbon_footprint]. apply total_carbon_bounds.
Qed.

Lemma built_nonnegative lower self :
  built lower self ->
  Forall (fun i => (0.0 <=? carbon_footprint i) = true) (menu_items self).
Proof.
  intros B. eapply Forall_impl; [ | exact (built_footprints lower self B) ].
  intros i H. apply (leb_trans 0.0 0.2); [ reflexivity | exact H ].
Qed.

Lemma built_numeric lower self :
  built lower self -> numeric carbon_footprint (menu_items self).
Proof.
  intros B. eapply Forall_impl; [ | exact (built_footprints lower self B) ].
  intros i H. apply leb_not_nan in H. tauto.
Qed.

(** C2: on an empty menu [generate_html_menu] computes a guarded average,
    which is 0, and then an unguarded percentage, whose division by
    [total_items = 0] raises [ZeroDivisionError]; the [except] clause
    turns it into the empty string.  [generate_report] returns before
    computing anything. *)
Theorem generate_html_menu_empty_divides_by_zero :
  forall (restaurant : str) (calc : CarbonCalculator)
         (filename : str) (written : result unit),
    let self := {| restaurant_name := restaurant;
                   calculator := calc;
                   menu_items := [] |} in
    html_avg_carbon self = Ok 0
    /\ html_eco_percent self = Raise ZeroDivisionError
    /\ html_statistics self = Raise ZeroDivisionError
    /\ generate_html_menu self filename written = []
    /\ report_statistics self = Ok None
    /\ generate_report self filename written = [].
Proof. intros. repeat split. Qed.

(** ** [sorted]: permutation, order and stability *)

Section Sorted.

Context {A : Type} (key : A -> float).

Lemma insert_by_perm x l : Permutation (insert_by key x l) (x :: l).
Proof.
  induction l as [ | y l IH]; cbn.
  - apply Permutation_refl.
  - destruct (key y <? key x).
    + eapply perm_trans; [ apply perm_skip, IH | apply perm_swap ].
    + apply Permutation_refl.
Qed.

Lemma sorted_perm l : Permutation (sorted key l) l.
Proof.
  induction l as [ | x l IH]; cbn.
  - constructor.
  - eapply perm_trans; [ apply insert_by_perm | apply perm_skip, IH ].
Qed.

Lemma sorted_length l : List.length (sorted key l) = List.length l.
Proof. apply Permutation_length, sorted_perm. Qed.

Lemma numeric_perm l l' : Permutation l l' -> numeric key l -> numeric key l'.
Proof. intros P. unfold numeric. apply Permutation_Forall, P. Qed.

Lemma insert_by_sorted x l :
  is_nan (key x) = false -> numeric key l ->
  StronglySorted (key_le key) l -> StronglySorted (key_le key) (insert_by key x l).
Proof.
  intros Hx Hl S. induction S as [ | y l S IH F]; cbn.
  - repeat constructor.
  - inversion Hl as [ | ? ? Hy Hl' ]; subst.
    destruct (key y <? key x) eqn:C.
    + constructor; [ apply IH, Hl' | ].
      apply (Permutation_Forall (Permutation_sym (insert_by_perm x l))).
      constructor; [ | exact F ].
      unfold key_le. apply ltb_rank in C. apply leb_rank.
      destruct C as (? & ? & C). repeat split; try assumption.
      intros C'. exact (rank_lt_irrefl _ (rank_lt_trans _ _ _ C C')).
    + assert (key_le key x y) as Lxy.
      { unfold key_le. rewrite (ltb_negb_leb _ _ Hy Hx) in C.
        destruct (key x <=? key y); [ reflexivity | discriminate C ]. }
      constructor; [ constructor; assumption | ].
      constructor; [ exact Lxy | ].
      eapply Forall_impl; [ | exact F ].
      intros z Lyz. exact (leb_trans _ _ _ Lxy Lyz).
Qed.

Lemma sorted_sorted l : numeric key l -> StronglySorted (key_le key) (sorted key l).
Proof.
  induction l as [ | x l IH]; intros N; cbn.
  - constructor.
  - inversion N; subst. apply insert_by_sorted; try assumption.
    + apply (numeric_perm l); [ apply Permutation_sym, sorted_perm | ].
      assumption.
    + apply IH. assumption.
Qed.

Lemma insert_by_with_key k x l :
  with_key key k (insert_by key x l) = with_key key k (x :: l).
Proof.
  induction l as [ | y l IH]; [ reflexivity | ].
  cbn [insert_by]. destruct (key y <? key x) eqn:C; [ | reflexivity ].
  unfold with_key in *. cbn [filter] in *. rewrite IH.
  destruct (key x =? k) eqn:X; [ | reflexivity ].
  rewrite (ltb_eqb_false _ _ _ C X). reflexivity.
Qed.

Lemma sorted_stable k l : with_key key k (sorted key l) = with_key key k l.
Proof.
  induction l as [ | x l IH]; [ reflexivity | ].
  cbn [sorted]. rewrite insert_by_with_key.
  unfold with_key in *. cbn [filter]. rewrite IH. reflexivity.
Qed.

Lemma with_key_head k a l :
  is_nan (key a) = false -> (key a =? k) = true ->
  with_key key k (a :: l) = a :: with_key key k l.
Proof. intros _ E. unfold with_key. cbn [filter]. rewrite E. reflexivity. Qed.

Lemma sorted_head_le a l b :
  is_nan (key a) = false ->
  StronglySorted (key_le key) (a :: l) -> In b (a :: l) -> key_le key a b.
Proof.
  intros Ha S [<- | Hb].
  - apply leb_refl, Ha.
  - inversion S as [ | ? ? _ F ]; subst.
    rewrite Forall_forall in F. apply F, Hb.
Qed.

Lemma with_key_nonempty a l l' :
  is_nan (key a) = false ->
  with_key key (key a) (a :: l) = with_key key (key a) l' -> In a l'.
Proof.
  intros Ha E. rewrite (with_key_head _ _ _ Ha (eqb_refl _ Ha)) in E.
  assert (In a (with_key key (key a) l')) as H by (rewrite <- E; left; reflexivity).
  unfold with_key in H. apply filter_In in H. tauto.
Qed.

(** Two ascending arrangements without NaN keys that agree on every
    subsequence of equal keys are the same list. *)
Lemma ascending_stable_unique l1 :
  forall l2,
    numeric key l1 -> numeric key l2 ->
    StronglySorted (key_le key) l1 -> StronglySorted (key_le key) l2 ->
    (forall k, with_key key k l1 = with_key key k l2) ->
    l1 = l2.
Proof.
  induction l1 as [ | a t1 IH]; intros [ | b t2] N1 N2 S1 S2 E.
  - reflexivity.
  - inversion N2; subst. exfalso.
    apply (with_key_nonempty b t2 []); [ assumption | ].
    symmetry. apply E.
  - inversion N1; subst. exfalso.
    apply (with_key_nonempty a t1 []); [ assumption | ]. apply E.
  - inversion N1 as [ | ? ? Ha N1' ]; inversion N2 as [ | ? ? Hb N2' ]; subst.
    assert (In a (b :: t2)) as Iab
      by (apply (with_key_nonempty a t1); [ assumption | apply E ]).
    assert (In b (a :: t1)) as Iba
      by (apply (with_key_nonempty b t2); [ assumption | symmetry; apply E ]).
    pose proof (sorted_head_le _ _ _ Hb S2 Iab) as Lba.
    pose proof (sorted_head_le _ _ _ Ha S1 Iba) as Lab.
    pose proof (leb_antisym _ _ Lab Lba) as Eab.
    assert (a = b) as ->.
    { pose proof (E (key a)) as Ek.
      rewrite (with_key_head _ _ _ Ha (eqb_refl _ Ha)) in Ek.
      rewrite eqb_sym in Eab.
      rewrite (with_key_head _ _ _ Hb Eab) in Ek. congruence. }
    f_equal. apply IH; try assumption.
    + inversion S1; assumption.
    + inversion S2; assumption.
    + intros k. specialize (E k). unfold with_key in *. cbn [filter] in E.
      destruct (key b =? k); congruence.
Qed.

(** The model of the builtin is forced: any stable ascending arrangement
    of a list without NaN keys is the one [sorted] returns. *)
Lemma stable_sort_unique l l' :
  numeric key l -> Permutation l' l ->
  StronglySorted (key_le key) l' ->
  (forall k, with_key key k l' = with_key key k l) ->
  l' = sorted key l.
Proof.
  intros N P S E. apply ascending_stable_unique.
  - apply (numeric_perm l); [ apply Permutation_sym, P | exact N ].
  - apply (numeric_perm l); [ apply Permutation_sym, sorted_perm | exact N ].
  - exact S.
  - apply sorted_sorted, N.
  - intros k. rewrite E, sorted_stable. reflexivity.
Qed.

End Sorted.

(** ** Slices *)

Lemma first3_short {A} (l : list A) :
  (List.length l <= 3)%nat -> first3 l = l.
Proof. intros H. unfold first3. apply firstn_all2, H. Qed.

Lemma last3_short {A} (l : list A) :
  (List.length l <= 3)%nat -> last3 l = l.
Proof.
  intros H. unfold last3.
  replace (List.length l - 3)%nat with 0%nat by lia. reflexivity.
Qed.

Lemma first3_length {A} (l : list A) :
  List.length (first3 l) = Nat.min 3 (List.length l).
Proof. unfold first3. apply length_firstn. Qed.

Lemma last3_length {A} (l : list A) :
  List.length (last3 l) = Nat.min 3 (List.length l).
Proof. unfold last3. rewrite length_skipn. lia. Qed.

Lemma first3_prefix {A} (l : list A) : exists rest, l = first3 l ++ rest.
Proof. exists (skipn 3 l). symmetry. apply firstn_skipn. Qed.

Lemma last3_suffix {A} (l : list A) : exists front, l = front ++ last3 l.
Proof.
  exists (firstn (List.length l - 3) l). symmetry. apply firstn_skipn.
Qed.

(** ** The statistics of the two generators *)

Lemma len_nonempty {A} (l : list A) : l <> [] -> (len l =? 0)%Z = false.
Proof.
  intros H. destruct l; [ congruence | ].
  unfold len. cbn [List.length]. apply Z.eqb_neq. lia.
Qed.

Lemma report_statistics_nonempty self :
  menu_items self <> [] ->
  exists st,
    report_statistics self = Ok (Some st)
    /\ total_items st = len (menu_items self)
    /\ lowest_carbon st = first3 (sorted carbon_footprint (menu_items self))
    /\ highest_carbon st = last3 (sorted carbon_footprint (menu_items self))
    /\ low_carbon st = len (filter is_low (menu_items self))
    /\ medium_carbon st = len (filter is_medium (menu_items self))
    /\ high_carbon st = len (filter is_high (menu_items self)).
Proof.
  intros H. unfold report_statistics, truediv_float_int, truediv_int.
  rewrite (len_nonempty _ H). cbn [bind].
  eexists. split; [ reflexivity | ]. cbn. repeat split.
Qed.

Lemma html_statistics_nonempty self :
  menu_items self <> [] ->
  exists h,
    html_statistics self = Ok h
    /\ html_sorted_items h = sorted carbon_footprint (menu_items self).
Proof.
  intros H.
  unfold html_statistics, html_avg_carbon, html_eco_percent,
    truediv_float_int, truediv_int.
  rewrite (len_nonempty _ H).
  destruct (len (menu_items self) >? 0)%Z; cbn [bind];
    eexists; (split; [ reflexivity | ]); reflexivity.
Qed.

(** Each number that is not NaN falls in exactly one bucket. *)
Lemma one_bucket i :
  is_nan (carbon_footprint i) = false -> buckets_of i = 1%Z.
Proof.
  intros N. unfold buckets_of, is_low, is_medium, is_high.
  assert (is_nan 2.0 = false) as N2 by reflexivity.
  assert (is_nan 4.0 = false) as N4 by reflexivity.
  rewrite (ltb_negb_leb _ _ N N2), (ltb_negb_leb _ _ N N4).
  destruct (2.0 <=? carbon_footprint i) eqn:L2;
    destruct (4.0 <=? carbon_footprint i) eqn:L4; try reflexivity.
  assert ((2.0 <=? 4.0) = true) as L24 by reflexivity.
  rewrite (leb_trans 2.0 4.0 _ L24 L4) in L2. discriminate L2.
Qed.

Lemma buckets_sum l :
  Forall (fun i => is_nan (carbon_footprint i) = false) l ->
  (len (filter is_low l) + len (filter is_medium l) + len (filter is_high l)
   = len l)%Z.
Proof.
  induction 1 as [ | i l N _ IH]; [ reflexivity | ].
  pose proof (one_bucket i N) as B. unfold buckets_of in B.
  unfold len in *. cbn [filter].
  destruct (is_low i), (is_medium i), (is_high i);
    cbn [Z.b2z] in B; try discriminate B; cbn [List.length]; lia.
Qed.

(** C3: on a non-empty menu of non-negative footprints the three counts
    of the report add up to the number of items, and every item is counted
    by exactly one of the three comprehensions. *)
Theorem carbon_buckets_partition :
  forall (self : QRMenuSystem),
    menu_items self <> [] ->
    Forall (fun i => (0.0 <=? carbon_footprint i) = true) (menu_items self) ->
    exists st,
      report_statistics self = Ok (Some st)
      /\ total_items st = len (menu_items self)
      /\ (low_carbon st + medium_carbon st + high_carbon st
          = total_items st)%Z
      /\ Forall (fun i => buckets_of i = 1%Z) (menu_items self).
Proof.
  intros self Hne Hpos.
  assert (Forall (fun i => is_nan (carbon_footprint i) = false)
            (menu_items self)) as N.
  { eapply Forall_impl; [ | exact Hpos ].
    intros i H. apply leb_not_nan in H. tauto. }
  destruct (report_statistics_nonempty self Hne)
    as (st & E & Et & _ & _ & El & Em & Eh).
  exists st. repeat split; try assumption.
  - rewrite El, Em, Eh, Et. apply buckets_sum, N.
  - eapply Forall_impl; [ | exact N ]. apply one_bucket.
Qed.

Lemma carbon_buckets_partition_witness :
  exists st,
    report_statistics sample_menu = Ok (Some st)
    /\ total_items st = len (menu_items sample_menu)
    /\ (low_carbon st + medium_carbon st + high_carbon st
        = total_items st)%Z
    /\ Forall (fun i => buckets_of i = 1%Z) (menu_items sample_menu).
Proof.
  apply (carbon_buckets_partition sample_menu).
  - vm_compute. discriminate.
  - vm_compute. repeat constructor.
Defined.

(** C5: both generators sort with [sorted]; the report takes the slices
    [:3] and [-3:] of the result, which have [min 3 n] items and are the
    whole sorted list when the menu has fewer than three.  The result is a
    permutation of the menu.  When no footprint is NaN, as in every menu
    the program builds, it is ascending in [carbon_footprint] and stable:
    for every value [k] the items with footprint [k] come in their order
    of the menu, in the sorted list and so in its two slices. *)
Theorem lowest_and_highest_from_stable_sort :
  forall (self : QRMenuSystem),
    let items := menu_items self in
    let sorted_items := sorted carbon_footprint items in
    let ascending_and_stable :=
      StronglySorted (key_le carbon_footprint) sorted_items
      /\ (forall k, with_key carbon_footprint k sorted_items
                    = with_key carbon_footprint k items)
      /\ (forall k, exists rest,
             with_key carbon_footprint k items
             = with_key carbon_footprint k (first3 sorted_items) ++ rest)
      /\ (forall k, exists front,
             with_key carbon_footprint k items
             = front ++ with_key carbon_footprint k (last3 sorted_items)) in
    (items <> [] ->
     exists st, report_statistics self = Ok (Some st)
                /\ lowest_carbon st = first3 sorted_items
                /\ highest_carbon st = last3 sorted_items)
    /\ (items <> [] ->
        exists h, html_statistics self = Ok h
                  /\ html_sorted_items h = sorted_items)
    /\ Permutation sorted_items items
    /\ List.length (first3 sorted_items) = Nat.min 3 (List.length items)
    /\ List.length (last3 sorted_items) = Nat.min 3 (List.length items)
    /\ ((List.length items < 3)%nat ->
        first3 sorted_items = sorted_items
        /\ last3 sorted_items = sorted_items)
    /\ (numeric carbon_footprint items -> ascending_and_stable)
    /\ (forall lower, built lower self -> ascending_and_stable).
Proof.
  intros self items sorted_items ascending_and_stable.
  assert (List.length sorted_items = List.length items) as EL
    by apply sorted_length.
  assert (numeric carbon_footprint items -> ascending_and_stable) as Hnum.
  { intros Num. unfold ascending_and_stable.
    split; [ apply sorted_sorted, Num | ].
    split; [ intros k; apply sorted_stable | ].
    split.
    - intros k. rewrite <- (sorted_stable carbon_footprint k items).
      fold sorted_items. destruct (first3_prefix sorted_items) as [rest E].
      exists (with_key carbon_footprint k rest).
      rewrite E at 1. apply filter_app.
    - intros k. rewrite <- (sorted_stable carbon_footprint k items).
      fold sorted_items. destruct (last3_suffix sorted_items) as [front E].
      exists (with_key carbon_footprint k front).
      rewrite E at 1. apply filter_app. }
  split; [ | split; [ | split; [ | split; [ | split; [ | split;
    [ | split ] ] ] ] ] ].
  - intros H.
    destruct (report_statistics_nonempty self H) as (st & E & _ & A & B & _).
    exists st. auto.
  - apply html_statistics_nonempty.
  - apply sorted_perm.
  - rewrite first3_length, EL. reflexivity.
  - rewrite last3_length, EL. reflexivity.
  - intros H. split; [ apply first3_short | apply last3_short ]; lia.
  - exact Hnum.
  - intros lower B. apply Hnum, (built_numeric lower), B.
Qed.

Lemma lowest_and_highest_from_stable_sort_witness :
  StronglySorted (key_le carbon_footprint)
    (sorted carbon_footprint (menu_items sample_menu))
  /\ (forall k,
         with_key carbon_footprint k
           (sorted carbon_footprint (menu_items sample_menu))
         = with_key carbon_footprint k (menu_items sample_menu)).
Proof.
  pose proof (lowest_and_highest_from_stable_sort sample_menu) as H.
  cbv zeta in H. destruct H as (_ & _ & _ & _ & _ & _ & H & _).
  assert (numeric carbon_footprint (menu_items sample_menu)) as Num
    by (vm_compute; repeat constructor).
  destruct (H Num) as (S & St & _). split; [ exact S | exact St ].
Defined.

(** * Further properties *)

(** ** The substring test *)

Lemma startswith_spec s p :
  startswith s p = true <-> exists post, s = p ++ post.
Proof.
  revert s. induction p as [ | c p IH]; intros s.
  - split; [ intros _; exists s; reflexivity | destruct s; reflexivity ].
  - destruct s as [ | d s]; cbn.
    { split; [ discriminate | intros [? ?]; discriminate ]. }
    rewrite andb_true_iff, N.eqb_eq, IH. split.
    + intros [-> [post ->]]. exists post. reflexivity.
    + intros [post E]. injection E as -> ->. split; [ reflexivity | ].
      exists post. reflexivity.
Qed.

Lemma contains_infix (s needle : str) :
  contains s needle = true
  <-> exists before after, s = before ++ needle ++ after.
Proof.
  induction s as [ | c s IH].
  - cbn [contains]. rewrite orb_false_r, startswith_spec. split.
    + intros [post E]. exists [], post. exact E.
    + intros (before & after & E). symmetry in E.
      apply app_eq_nil in E. destruct E as [-> E].
      exists after. symmetry. exact E.
  - cbn [contains]. rewrite orb_true_iff, startswith_spec, IH. split.
    + intros [[post E] | (before & after & E)].
      * exists [], post. exact E.
      * exists (c :: before), after. rewrite E. reflexivity.
    + intros (before & after & E). destruct before as [ | d before].
      * left. exists after. exact E.
      * right. injection E as _ E. exists before, after. exact E.
Qed.

Lemma contains_trans s a b :
  contains s a = true -> contains a b = true -> contains s b = true.
Proof.
  rewrite !contains_infix.
  intros (p1 & q1 & ->) (p2 & q2 & ->).
  exists (p1 ++ p2), (q2 ++ q1). rewrite <- !app_assoc. reflexivity.
Qed.

Lemma contains_In s needle c :
  contains s needle = true -> In c needle -> In c s.
Proof.
  rewrite contains_infix. intros (before & after & ->) H.
  apply in_or_app. right. apply in_or_app. left. exact H.
Qed.

(** X1: [needle in s] holds exactly when [needle] occurs in [s] as a
    block of consecutive code points; so the empty string is in every
    string, every string is in itself, a string is never in a shorter one,
    and a keyword found in a name brings all of its own substrings. *)
Theorem contains_iff_infix :
  forall (s needle : str),
    (contains s needle = true
     <-> exists before after, s = before ++ needle ++ after)
    /\ contains s [] = true
    /\ contains s s = true
    /\ ((List.length s < List.length needle)%nat ->
        contains s needle = false)
    /\ (forall sub, contains s needle = true ->
                    contains needle sub = true -> contains s sub = true).
Proof.
  intros s needle. split; [ apply contains_infix | ].
  split; [ apply contains_infix; exists [], s; reflexivity | ].
  split; [ apply contains_infix; exists [], []; cbn;
           rewrite app_nil_r; reflexivity | ].
  split.
  - intros L. destruct (contains s needle) eqn:C; [ exfalso | reflexivity ].
    apply contains_infix in C. destruct C as (before & after & E).
    rewrite E, !length_app in L. lia.
  - intros sub. apply contains_trans.
Qed.

Lemma any_in_intro kws s k :
  In k kws -> contains s k = true -> any_in kws s = true.
Proof.
  intros I C. unfold any_in. apply existsb_exists. exists k. tauto.
Qed.

(** ** Decidable membership and equality of tags *)

Lemma mem_In tag l : mem tag l = true <-> In tag l.
Proof.
  unfold mem. destruct (in_dec str_eq_dec tag l); split;
    intros; congruence || assumption || reflexivity.
Qed.

Lemma same_eq a b : same a b = true <-> a = b.
Proof.
  unfold same. destruct (list_eq_dec str_eq_dec a b); split;
    intros; congruence || assumption || reflexivity.
Qed.

(** ** The estimator: range, red meat, shape of the ingredient list *)

(** X2: the stored total never exceeds 10.35, the total of grilled lamb
    with rice, a salad portion and cheese, which a name with these
    keywords attains; with the lower bound 0.2 this is the full range of
    the footprint. *)
Theorem total_carbon_at_most_10_35 :
  (forall (lower : str -> str) (self : CarbonCalculator) (s : str),
      (CarbonData.total_carbon (estimate_carbon_footprint lower self s)
       <=? 10.35) = true)
  /\ (forall (lower : str -> str) (self : CarbonCalculator) (s : str),
         lower s = lit "grilled lamb risotto salad with cheese" ->
         CarbonData.total_carbon (estimate_carbon_footprint lower self s)
         = 10.35).
Proof.
  split.
  - exact (estimator_forall
             (fun r => CarbonData.total_carbon r <=? 10.35)
             ltac:(vm_compute; reflexivity)).
  - intros lower self s E.
    unfold estimate_carbon_footprint, detect_ingredients. rewrite E.
    vm_compute. reflexivity.
Qed.

(** X3: a result whose ingredients include beef, pork or lamb is never
    eco-friendly, and its stored total is above 2.0; in particular no name
    with a beef keyword is eco-friendly. *)
Theorem red_meat_never_eco_friendly :
  forall (lower : str -> str) (self : CarbonCalculator) (s : str),
    let r := estimate_carbon_footprint lower self s in
    (In (lit "beef") (CarbonData.ingredients r)
     \/ In (lit "pork") (CarbonData.ingredients r)
     \/ In (lit "lamb") (CarbonData.ingredients r) ->
     CarbonData.is_eco_friendly r = false
     /\ (2.0 <? CarbonData.total_carbon r) = true)
    /\ (any_in kw_beef (lower s) = true ->
        CarbonData.is_eco_friendly r = false).
Proof.
  intros lower self s r.
  pose proof (estimator_forall
    (fun r => implb (mem (lit "beef") (CarbonData.ingredients r)
                     || mem (lit "pork") (CarbonData.ingredients r)
                     || mem (lit "lamb") (CarbonData.ingredients r))
                    (negb (CarbonData.is_eco_friendly r)
                     && (2.0 <? CarbonData.total_carbon r)))
    ltac:(vm_compute; reflexivity) lower self s) as H.
  cbv beta in H. fold r in H.
  assert (In (lit "beef") (CarbonData.ingredients r)
          \/ In (lit "pork") (CarbonData.ingredients r)
          \/ In (lit "lamb") (CarbonData.ingredients r) ->
          CarbonData.is_eco_friendly r = false
          /\ (2.0 <? CarbonData.total_carbon r) = true) as Hmeat.
  { intros M. rewrite <- !mem_In in M.
    assert (mem (lit "beef") (CarbonData.ingredients r)
            || mem (lit "pork") (CarbonData.ingredients r)
            || mem (lit "lamb") (CarbonData.ingredients r) = true) as M'.
    { rewrite !orb_true_iff. tauto. }
    clearbody r. rewrite M' in H. cbn [implb] in H.
    apply andb_true_iff in H. destruct H as [H1 H2]. split; [ | exact H2 ].
    destruct (CarbonData.is_eco_friendly r); [ discriminate H1 | reflexivity ]. }
  split; [ exact Hmeat | ].
  intros B. apply Hmeat. left.
  subst r. unfold estimate_carbon_footprint, carbon_data.
  destruct (cooking (lower s)) as [methods carbon]. cbn.
  destruct (detect_ingredients_extends lower s) as [rest E].
  rewrite E, (protein_beef _ B). left. reflexivity.
Qed.

Lemma red_meat_never_eco_friendly_witness :
  CarbonData.is_eco_friendly
    (estimate_carbon_footprint ascii_lower CarbonCalculator_init
       (lit "Steak Tartare")) = false.
Proof.
  apply (red_meat_never_eco_friendly ascii_lower CarbonCalculator_init
           (lit "Steak Tartare")).
  vm_compute. reflexivity.
Defined.

(** X4: the ingredient list has one to four distinct tags, "vegetables"
    is among its first three, and what follows the first three is nothing
    or "cheese" alone: the ingredients line of the HTML menu, which shows
    three, always shows the vegetables and can only drop the cheese. *)
Theorem ingredients_shape :
  forall (lower : str -> str) (self : CarbonCalculator) (s : str),
    let l := CarbonData.ingredients (estimate_carbon_footprint lower self s) in
    (1 <= List.length l <= 4)%nat
    /\ NoDup l
    /\ In (lit "vegetables") (firstn 3 l)
    /\ (skipn 3 l = [] \/ skipn 3 l = [lit "cheese"]).
Proof.
  intros lower self s l.
  pose proof (estimator_forall
    (fun r => let l := CarbonData.ingredients r in
              (1 <=? List.length l)%nat && (List.length l <=? 4)%nat
              && same (nodup str_eq_dec l) l
              && mem (lit "vegetables") (firstn 3 l)
              && (same (skipn 3 l) [] || same (skipn 3 l) [lit "cheese"]))
    ltac:(vm_compute; reflexivity) lower self s) as H.
  cbv beta zeta in H. fold l in H.
  rewrite !andb_true_iff, orb_true_iff, !same_eq, mem_In in H.
  destruct H as ((((H1 & H2) & H3) & H4) & H5).
  apply Nat.leb_le in H1, H2.
  repeat split; try assumption.
  rewrite <- H3. apply NoDup_nodup.
Qed.

Lemma total_carbon_at_most_10_35_witness :
  CarbonData.total_carbon
    (estimate_carbon_footprint ascii_lower CarbonCalculator_init
       (lit "Grilled Lamb Risotto Salad with Cheese")) = 10.35.
Proof.
  apply (proj2 total_carbon_at_most_10_35 ascii_lower CarbonCalculator_init).
  vm_compute. reflexivity.
Defined.

(** ** Keywords that overlap *)

(** X5: "hamburger" contains both "ham" and "burger".  A lower-cased name
    that contains it gets beef as first ingredient (beef is tested before
    pork) and always a carbohydrate as second: bread, unless a pasta or rice
    keyword comes first. *)
Theorem hamburger_is_beef_with_carbs :
  forall (lower : str -> str) (self : CarbonCalculator) (s : str),
    contains (lower s) (lit "hamburger") = true ->
    any_in kw_pork (lower s) = true
    /\ any_in kw_bread (lower s) = true
    /\ exists carb rest,
         CarbonData.ingredients (estimate_carbon_footprint lower self s)
         = lit "beef" :: carb :: rest
         /\ In carb [lit "pasta"; lit "rice"; lit "bread"].
Proof.
  intros lower self s H.
  assert (any_in kw_beef (lower s) = true) as Hbeef.
  { apply (any_in_intro _ _ (lit "hamburger")); [ cbn; tauto | exact H ]. }
  assert (any_in kw_pork (lower s) = true) as Hpork.
  { apply (any_in_intro _ _ (lit "ham")); [ cbn; tauto | ].
    apply (contains_trans _ _ _ H). vm_compute. reflexivity. }
  assert (any_in kw_bread (lower s) = true) as Hbread.
  { apply (any_in_intro _ _ (lit "burger")); [ cbn; tauto | ].
    apply (contains_trans _ _ _ H). vm_compute. reflexivity. }
  repeat split; try assumption.
  unfold estimate_carbon_footprint, carbon_data, detect_ingredients.
  destruct (cooking (lower s)) as [methods carbon].
  cbn [CarbonData.ingredients].
  rewrite (protein_beef _ Hbeef).
  set (a := {| acc_ingredients := [lit "beef"]; acc_total := 6.75 |}).
  destruct (dairy_extends (lower s) (vegetables (lower s) (carbs (lower s) a)))
    as [r2 E2].
  destruct (vegetables_extends (lower s) (carbs (lower s) a)) as [r1 E1].
  rewrite E2, E1. unfold carbs. rewrite Hbread.
  destruct (any_in kw_pasta (lower s));
    [ | destruct (any_in kw_rice (lower s)) ];
    cbn [add_ingredient acc_ingredients a app];
    eexists; eexists; (split; [ reflexivity | cbn; tauto ]).
Qed.

Lemma hamburger_is_beef_with_carbs_witness :
  any_in kw_pork (ascii_lower (lit "Hamburger Deluxe")) = true.
Proof.
  apply (hamburger_is_beef_with_carbs ascii_lower CarbonCalculator_init
           (lit "Hamburger Deluxe")).
  vm_compute. reflexivity.
Defined.

(** X6: "salad" is a keyword of the vegetables block and of the raw
    branch.  A lower-cased name that contains it gets the larger vegetable
    portion and is never cooked on the stovetop; without a grill, fry or
    bake keyword it is raw, and cooking adds exactly 0.0 to the total. *)
Theorem salad_is_never_on_the_stovetop :
  forall (lower : str -> str) (self : CarbonCalculator) (s : str),
    contains (lower s) (lit "salad") = true ->
    let r := estimate_carbon_footprint lower self s in
    (forall a, vegetables (lower s) a
               = add_ingredient (lit "vegetables") (2.0 * 0.2) a)
    /\ CarbonData.cooking_methods r <> [lit "stovetop"]
    /\ (any_in (kw_grilled ++ kw_fried ++ kw_baked) (lower s) = false ->
        CarbonData.cooking_methods r = [lit "raw"]
        /\ raw_total_carbon lower s
           = acc_total (detect_ingredients lower s) + 0.0).
Proof.
  intros lower self s H r.
  assert (any_in kw_salad (lower s) = true) as Hveg
    by (apply (any_in_intro _ _ (lit "salad")); [ cbn; tauto | exact H ]).
  assert (any_in kw_raw (lower s) = true) as Hraw
    by (apply (any_in_intro _ _ (lit "salad")); [ cbn; tauto | exact H ]).
  split; [ | split ].
  - intros a. unfold vegetables. rewrite Hveg. reflexivity.
  - subst r. unfold estimate_carbon_footprint, carbon_data, cooking.
    rewrite Hraw. decide_tests; cbn; discriminate.
  - intros N. unfold any_in in N. rewrite !existsb_app in N.
    apply orb_false_iff in N. destruct N as [Ng N].
    apply orb_false_iff in N. destruct N as [Nf Nb].
    subst r.
    unfold estimate_carbon_footprint, raw_total_carbon, carbon_data, cooking.
    fold (any_in kw_grilled (lower s)) in Ng.
    fold (any_in kw_fried (lower s)) in Nf.
    fold (any_in kw_baked (lower s)) in Nb.
    rewrite Ng, Nf, Nb, Hraw. split; reflexivity.
Qed.

Lemma salad_is_never_on_the_stovetop_witness :
  CarbonData.cooking_methods
    (estimate_carbon_footprint ascii_lower CarbonCalculator_init
       (lit "Organic Garden Salad")) <> [lit "stovetop"].
Proof.
  apply (salad_is_never_on_the_stovetop ascii_lower CarbonCalculator_init
           (lit "Organic Garden Salad")).
  vm_compute. reflexivity.
Defined.

(** ** ASCII names and the Turkish keywords *)

Lemma ascii_lower_is_ascii s : is_ascii s -> is_ascii (ascii_lower s).
Proof.
  unfold is_ascii, ascii_lower. intros H. apply Forall_map.
  eapply Forall_impl; [ | exact H ]. intros c Hc. unfold ascii_lower_cp.
  destruct ((65 <=? c)%N && (c <=? 90)%N) eqn:E; [ | exact Hc ].
  apply andb_true_iff in E. destruct E as [_ E]. apply N.leb_le in E. lia.
Qed.

Lemma ascii_never_contains_dotless_i s keyword :
  is_ascii s -> In dotless_i keyword ->
  contains (ascii_lower s) keyword = false.
Proof.
  intros A I. destruct (contains (ascii_lower s) keyword) eqn:C;
    [ exfalso | reflexivity ].
  pose proof (contains_In _ _ _ C I) as H.
  pose proof (ascii_lower_is_ascii s A) as A'.
  unfold is_ascii in A'. rewrite Forall_forall in A'.
  specialize (A' _ H). unfold dotless_i in A'. lia.
Qed.

(** X7: the four Turkish keywords spelt with a dotless i never match a
    name made of ASCII code points, whose lower-casing stays ASCII: under
    ASCII lower-casing the fish test reduces to "fish" and "salmon", the
    grill test to "grill", the fry test to "fried" and the bake test to
    "baked" and "roasted".  So the upper-case spelling "IZGARA" is not
    recognised as a grill. *)
Theorem dotless_keywords_never_match_ascii :
  forall (s : str),
    is_ascii s ->
    let dish_lower := ascii_lower s in
    any_in kw_fish dish_lower = any_in [lit "fish"; lit "salmon"] dish_lower
    /\ any_in kw_grilled dish_lower = contains dish_lower (lit "grill")
    /\ any_in kw_fried dish_lower = contains dish_lower (lit "fried")
    /\ any_in kw_baked dish_lower
       = any_in [lit "baked"; lit "roasted"] dish_lower.
Proof.
  intros s A dish_lower. subst dish_lower.
  unfold any_in, kw_fish, kw_grilled, kw_fried, kw_baked. cbn [existsb].
  rewrite (ascii_never_contains_dotless_i s
             (lit "bal" ++ [dotless_i] ++ lit "k") A),
    (ascii_never_contains_dotless_i s ([dotless_i] ++ lit "zgara") A),
    (ascii_never_contains_dotless_i s
       (lit "k" ++ [dotless_i] ++ lit "zartma") A),
    (ascii_never_contains_dotless_i s
       (lit "f" ++ [dotless_i] ++ lit "r" ++ [dotless_i] ++ lit "n") A)
    by (vm_compute; tauto).
  rewrite !orb_false_r. repeat split.
  destruct (contains (ascii_lower s) (lit "grilled")) eqn:G;
    [ | reflexivity ].
  symmetry. apply (contains_trans _ _ _ G). vm_compute. reflexivity.
Qed.

Lemma dotless_keywords_never_match_ascii_witness :
  any_in kw_grilled (ascii_lower (lit "IZGARA TAVUK"))
  = contains (ascii_lower (lit "IZGARA TAVUK")) (lit "grill").
Proof.
  apply (dotless_keywords_never_match_ascii (lit "IZGARA TAVUK")).
  vm_compute. repeat constructor.
Defined.

(** ** Items stored by [add_menu_item] *)

Lemma add_menu_item_item_ok lower self n p d :
  item_ok (fst (add_menu_item lower self n p d)).
Proof.
  pose proof (estimator_forall
    (fun r => (0.2 <=? CarbonData.total_carbon r)
              && (CarbonData.total_carbon r <=? 10.35)
              && negb (CarbonData.total_carbon r =? 4.0)
              && implb (CarbonData.total_carbon r <? 2.0)
                       (CarbonData.is_eco_friendly r)
              && implb (CarbonData.is_eco_friendly r)
                       (CarbonData.total_carbon r <=? 2.0)
              && mem (lit "vegetables") (firstn 3 (CarbonData.ingredients r))
              && (List.length (CarbonData.ingredients r) <=? 4)%nat
              && (List.length (CarbonData.cooking_methods r) =? 1)%nat)
    ltac:(vm_compute; reflexivity) lower (calculator self) n) as H.
  cbv beta in H. rewrite !andb_true_iff in H.
  destruct H as (((((((H1 & H2) & H3) & H4) & H5) & H6) & H7) & H8).
  unfold item_ok, is_low.
  cbn [add_menu_item fst carbon_footprint is_eco_friendly ingredients
       cooking_methods description].
  repeat split.
  - exact H1.
  - exact H2.
  - apply negb_true_iff, H3.
  - intros E. rewrite E in H4. exact H4.
  - intros E. rewrite E in H5. exact H5.
  - apply mem_In, H6.
  - apply Nat.leb_le, H7.
  - apply Nat.eqb_eq, H8.
  - destruct d; discriminate.
Qed.

Lemma add_menu_items_app lower self entries :
  menu_items (add_menu_items lower self entries)
  = menu_items self
    ++ map (fun '(n, p, d) =>
              fst (add_menu_item lower
                     {| restaurant_name := restaurant_name self;
                        calculator := calculator self;
                        menu_items := [] |} n p d))
         entries
  /\ restaurant_name (add_menu_items lower self entries)
     = restaurant_name self
  /\ calculator (add_menu_items lower self entries) = calculator self.
Proof.
  revert self. induction entries as [ | [[n p] d] entries IH]; intros self.
  - cbn. rewrite app_nil_r. tauto.
  - cbn [add_menu_items fold_left map].
    specialize (IH (snd (add_menu_item lower self n p d))).
    unfold add_menu_items in IH. destruct IH as (IH1 & IH2 & IH3).
    rewrite IH1, IH2, IH3. cbn. rewrite <- app_assoc. tauto.
Qed.

Lemma add_menu_items_built lower self entries :
  built lower self -> built lower (add_menu_items lower self entries).
Proof.
  revert self. induction entries as [ | [[n p] d] entries IH]; intros self B.
  - exact B.
  - cbn [add_menu_items fold_left]. apply IH. apply built_add, B.
Qed.

Lemma create_sample_menu_built lower self :
  built lower self -> built lower (create_sample_menu lower self).
Proof. apply (add_menu_items_built lower self sample_items). Qed.

Lemma sample_menu_built : built ascii_lower sample_menu.
Proof. apply create_sample_menu_built, built_init. Qed.

Lemma built_item_ok lower self :
  built lower self -> Forall item_ok (menu_items self).
Proof.
  intros B. induction B as [ restaurant | self n p d _ IH ].
  - constructor.
  - cbn [add_menu_item snd menu_items]. apply Forall_app. split.
    + exact IH.
    + constructor; [ | constructor ].
      apply (add_menu_item_item_ok lower self n p d).
Qed.

(** X8: every item of every menu built by [__init__] and [add_menu_item]
    calls is well formed in the sense of [item_ok]; in particular its
    footprint is a number that is not negative, as the counts of the
    report and the order of the sort need. *)
Theorem built_items_well_formed :
  forall (lower : str -> str) (self : QRMenuSystem),
    built lower self ->
    Forall item_ok (menu_items self)
    /\ numeric carbon_footprint (menu_items self)
    /\ Forall (fun i => (0.0 <=? carbon_footprint i) = true)
              (menu_items self).
Proof.
  intros lower self B. split; [ | split ].
  - apply (built_item_ok lower), B.
  - apply (built_numeric lower), B.
  - apply (built_nonnegative lower), B.
Qed.

Lemma built_items_well_formed_witness :
  Forall item_ok (menu_items sample_menu).
Proof.
  apply (built_items_well_formed ascii_lower sample_menu).
  unfold sample_menu, create_sample_menu, sample_items. cbn [fold_left].
  repeat apply built_add. apply built_init.
Defined.

(** X9: the loop of [create_sample_menu] appends one item per entry, in
    the order of the entries, with the entry's name and price; it keeps
    the items already stored and the restaurant name; and
    [create_sample_menu] itself is this loop on the ten sample entries. *)
Theorem add_menu_items_appends_in_order :
  forall (lower : str -> str) (self : QRMenuSystem)
         (entries : list (str * float * str)),
    let self' := add_menu_items lower self entries in
    (exists items,
        menu_items self' = menu_items self ++ items
        /\ map name items = map (fun e => fst (fst e)) entries
        /\ map price items = map (fun e => snd (fst e)) entries)
    /\ len (menu_items self')
       = (len (menu_items self) + len entries)%Z
    /\ restaurant_name self' = restaurant_name self
    /\ create_sample_menu lower self = add_menu_items lower self sample_items
    /\ len (menu_items (create_sample_menu lower self))
       = (len (menu_items self) + 10)%Z.
Proof.
  intros lower self entries self'.
  destruct (add_menu_items_app lower self entries) as (E & En & _).
  fold self' in E, En.
  assert (forall es : list (str * float * str),
             len (menu_items (add_menu_items lower self es))
             = (len (menu_items self) + len es)%Z) as L.
  { intros es. destruct (add_menu_items_app lower self es) as (Ee & _).
    rewrite Ee. unfold len. rewrite length_app, length_map. lia. }
  split; [ | split; [ | split; [ | split ] ] ].
  - eexists. split; [ exact E | ]. rewrite !map_map. split;
      apply map_ext; intros [[n p] d]; reflexivity.
  - apply L.
  - exact En.
  - reflexivity.
  - change (create_sample_menu lower self)
      with (add_menu_items lower self sample_items).
    rewrite L. reflexivity.
Qed.

(** ** The generators *)

(** X10: [generate_html_menu] raises inside exactly when the menu is
    empty, and then only [ZeroDivisionError]; on a non-empty menu it
    returns the file name when the file could be written.  The statistics
    of [generate_report] never raise: the early return covers the only
    division by zero. *)
Theorem generators_raise_only_on_empty_html :
  forall (self : QRMenuSystem) (filename : str),
    (html_statistics self = Raise ZeroDivisionError
     <-> menu_items self = [])
    /\ (forall e, html_statistics self = Raise e -> menu_items self = [])
    /\ (menu_items self <> [] ->
        generate_html_menu self filename (Ok tt) = filename
        /\ generate_report self filename (Ok tt) = filename)
    /\ (forall e, report_statistics self <> Raise e)
    /\ (report_statistics self = Ok None <-> menu_items self = []).
Proof.
  intros self filename.
  assert (menu_items self = [] \/ menu_items self <> []) as Cases
    by (destruct (menu_items self); [ left; reflexivity | right; discriminate ]).
  assert (menu_items self <> [] ->
          exists h, html_statistics self = Ok h) as Hhtml.
  { intros N. destruct (html_statistics_nonempty self N) as (h & Eh & _).
    exists h. exact Eh. }
  assert (menu_items self <> [] ->
          exists st, report_statistics self = Ok (Some st)) as Hrep.
  { intros N. destruct (report_statistics_nonempty self N) as (st & E & _).
    exists st. exact E. }
  assert (menu_items self = [] -> report_statistics self = Ok None) as Hnone.
  { intros E. unfold report_statistics. rewrite E. reflexivity. }
  assert (forall e, html_statistics self = Raise e -> menu_items self = [])
    as Hraise.
  { intros e H. destruct Cases as [E | N]; [ exact E | exfalso ].
    destruct (Hhtml N) as [h Eh]. congruence. }
  split; [ | split; [ | split; [ | split ] ] ].
  - split; [ apply Hraise | ].
    intros E. unfold html_statistics, html_avg_carbon, html_eco_percent.
    rewrite E. reflexivity.
  - exact Hraise.
  - intros N. split.
    + unfold generate_html_menu. destruct (Hhtml N) as [h Eh].
      rewrite Eh. reflexivity.
    + unfold generate_report. destruct (Hrep N) as [st E]. rewrite E.
      reflexivity.
  - intros e H. destruct Cases as [E | N].
    + rewrite (Hnone E) in H. discriminate H.
    + destruct (Hrep N) as [st Est]. congruence.
  - split; [ | apply Hnone ].
    intros H. destruct Cases as [E | N]; [ exact E | exfalso ].
    destruct (Hrep N) as [st Est]. congruence.
Qed.

Lemma generators_raise_only_on_empty_html_witness :
  generate_html_menu sample_menu (lit "digital_menu.html") (Ok tt)
  = lit "digital_menu.html".
Proof.
  apply (generators_raise_only_on_empty_html sample_menu
           (lit "digital_menu.html")).
  vm_compute. discriminate.
Defined.

(** Facts about one well-formed item. *)
Lemma item_ok_numeric i : item_ok i -> is_nan (carbon_footprint i) = false.
Proof. intros (H & _). apply leb_not_nan in H. tauto. Qed.

Lemma item_ok_high i :
  item_ok i -> (4.0 <? carbon_footprint i) = is_high i.
Proof.
  intros H. pose proof (item_ok_numeric i H) as N.
  destruct H as (_ & _ & H4 & _). unfold is_high.
  assert (is_nan 4.0 = false) as N4 by reflexivity.
  destruct (4.0 <=? carbon_footprint i) eqn:L.
  - rewrite (ltb_negb_leb _ _ N4 N).
    destruct (carbon_footprint i <=? 4.0) eqn:L'; [ exfalso | reflexivity ].
    rewrite (leb_antisym _ _ L' L) in H4. discriminate H4.
  - destruct (4.0 <? carbon_footprint i) eqn:L'; [ exfalso | reflexivity ].
    apply ltb_rank in L'. assert ((4.0 <=? carbon_footprint i) = true).
    { apply leb_rank. destruct L' as (? & ? & R).
      repeat split; try assumption. intros R'.
      exact (rank_lt_irrefl _ (rank_lt_trans _ _ _ R R')). }
    congruence.
Qed.

Lemma item_ok_eco_not_high i :
  item_ok i -> is_eco_friendly i = true -> is_high i = false.
Proof.
  intros H E. destruct H as (_ & _ & _ & _ & H5 & _). specialize (H5 E).
  unfold is_high. destruct (4.0 <=? carbon_footprint i) eqn:L;
    [ exfalso | reflexivity ].
  pose proof (leb_trans 4.0 _ 2.0 L H5) as F. vm_compute in F.
  discriminate F.
Qed.

Lemma item_ok_eco_low_or_medium i :
  item_ok i -> is_eco_friendly i = true ->
  is_low i = false -> is_medium i = true.
Proof.
  intros H E Lo. pose proof (item_ok_numeric i H) as N.
  pose proof (item_ok_eco_not_high i H E) as Hi.
  assert (is_nan 2.0 = false) as N2 by reflexivity.
  assert (is_nan 4.0 = false) as N4 by reflexivity.
  unfold is_low, is_medium, is_high in *.
  rewrite (ltb_negb_leb _ _ N N2) in Lo.
  rewrite (ltb_negb_leb _ _ N N4), Hi.
  destruct (2.0 <=? carbon_footprint i); [ reflexivity | discriminate Lo ].
Qed.

(** X11: in the HTML of a menu the program has built, no item carries
    both the "eco" class and the "carbon-high" class, the seedling is
    shown exactly on the items of class "eco", the items marked
    "carbon-high" (footprint > 4.0) are exactly those that the report
    counts as high carbon (footprint >= 4.0), and the ingredients line
    always lists the vegetables. *)
Theorem html_classes_of_built_menus :
  forall (lower : str -> str) (self : QRMenuSystem),
    built lower self ->
    Forall (fun i =>
              let h := render_item i in
              ~ (eco_class h = lit "eco"
                 /\ carbon_class h = lit "carbon-high")
              /\ (eco_icon h = [seedling] <-> eco_class h = lit "eco")
              /\ (carbon_class h = lit "carbon-high" <-> is_high i = true)
              /\ In (lit "vegetables") (shown_ingredients h))
           (menu_items self).
Proof.
  intros lower self B.
  eapply Forall_impl; [ | exact (built_item_ok lower self B) ].
  intros i H. cbv zeta. unfold render_item.
  cbn [eco_class carbon_class eco_icon shown_ingredients].
  rewrite (item_ok_high i H).
  pose proof (item_ok_eco_not_high i H) as EH.
  destruct H as (_ & _ & _ & _ & _ & Hv & _).
  destruct (is_eco_friendly i), (is_high i);
    repeat split; try assumption; try discriminate; try reflexivity;
    try (intros [? ?]; discriminate).
  specialize (EH eq_refl). discriminate EH.
Qed.

Lemma html_classes_of_built_menus_witness :
  Forall (fun i =>
            let h := render_item i in
            ~ (eco_class h = lit "eco" /\ carbon_class h = lit "carbon-high")
            /\ (eco_icon h = [seedling] <-> eco_class h = lit "eco")
            /\ (carbon_class h = lit "carbon-high" <-> is_high i = true)
            /\ In (lit "vegetables") (shown_ingredients h))
         (menu_items sample_menu).
Proof.
  apply (html_classes_of_built_menus ascii_lower sample_menu).
  unfold sample_menu, create_sample_menu, sample_items. cbn [fold_left].
  repeat apply built_add. apply built_init.
Defined.

Lemma counts_of_well_formed l :
  Forall item_ok l ->
  (len (filter is_low l) <= count is_eco_friendly l
   <= len (filter is_low l) + len (filter is_medium l))%Z.
Proof.
  unfold count, len. induction 1 as [ | i l H _ IH]; [ cbn; lia | ].
  pose proof (item_ok_eco_low_or_medium i H) as M.
  destruct H as (_ & _ & _ & H4 & _).
  cbn [filter].
  destruct (is_low i) eqn:Lo, (is_eco_friendly i) eqn:E,
           (is_medium i) eqn:Me; cbn [List.length];
    try lia;
    try (specialize (H4 eq_refl); discriminate H4);
    try (specialize (M eq_refl eq_refl); discriminate M).
Qed.

(** X12: in the report of a menu the program has built, every low-carbon
    item is eco-friendly and every eco-friendly item is low or medium
    carbon, so that low <= eco <= low + medium; the two counts differ on
    the menu that holds only "Fried Cheese Sandwich", which is reported
    as 1 eco-friendly item and 0 low-carbon items. *)
Theorem report_eco_between_low_and_medium :
  (forall (lower : str -> str) (self : QRMenuSystem),
      built lower self -> menu_items self <> [] ->
      exists st,
        report_statistics self = Ok (Some st)
        /\ (low_carbon st <= eco_items st
            <= low_carbon st + medium_carbon st)%Z)
  /\ (exists st,
         report_statistics
           (snd (add_menu_item ascii_lower (QRMenuSystem_init (lit "Cafe"))
                   (lit "Fried Cheese Sandwich") 30.0 []))
         = Ok (Some st)
         /\ eco_items st = 1%Z /\ low_carbon st = 0%Z
         /\ medium_carbon st = 1%Z).
Proof.
  split.
  - intros lower self B N.
    pose proof (counts_of_well_formed _ (built_item_ok lower self B)) as C.
    unfold report_statistics, truediv_float_int, truediv_int.
    rewrite (len_nonempty _ N). cbn [bind].
    eexists. split; [ reflexivity | ]. cbn [low_carbon eco_items medium_carbon].
    exact C.
  - eexists. split; [ vm_compute; reflexivity | ]. cbn. repeat split.
Qed.

Lemma report_eco_between_low_and_medium_witness :
  exists st,
    report_statistics sample_menu = Ok (Some st)
    /\ (low_carbon st <= eco_items st
        <= low_carbon st + medium_carbon st)%Z.
Proof.
  apply (proj1 report_eco_between_low_and_medium ascii_lower sample_menu).
  - unfold sample_menu, create_sample_menu, sample_items. cbn [fold_left].
    repeat apply built_add. apply built_init.
  - vm_compute. discriminate.
Defined.

(** ** More on [sorted] and the two slices *)

Lemma sorted_last_ge {A} (key : A -> float) (l : list A) (z : A) :
  is_nan (key z) = false ->
  StronglySorted (key_le key) (l ++ [z]) ->
  forall a, In a (l ++ [z]) -> key_le key a z.
Proof.
  intros Hz. induction l as [ | x l IH]; intros S a Ha.
  - destruct Ha as [<- | []]. apply leb_refl, Hz.
  - cbn in S. inversion S as [ | ? ? S' F ]; subst.
    destruct Ha as [<- | Ha].
    + rewrite Forall_forall in F. apply F, in_or_app. right. left. reflexivity.
    + apply IH; assumption.
Qed.

(** X13: on a non-empty menu without NaN footprints the first item that
    the report lists as most eco-friendly has the least footprint of the
    menu, and the last item it lists as highest carbon has the greatest. *)
Theorem report_lists_minimum_and_maximum :
  forall (self : QRMenuSystem),
    menu_items self <> [] ->
    numeric carbon_footprint (menu_items self) ->
    exists st lo rest hi front,
      report_statistics self = Ok (Some st)
      /\ lowest_carbon st = lo :: rest
      /\ highest_carbon st = front ++ [hi]
      /\ In lo (menu_items self)
      /\ In hi (menu_items self)
      /\ forall i, In i (menu_items self) ->
                   (carbon_footprint lo <=? carbon_footprint i) = true
                   /\ (carbon_footprint i <=? carbon_footprint hi) = true.
Proof.
  intros self N Num.
  destruct (report_statistics_nonempty self N)
    as (st & E & _ & Elo & Ehi & _).
  set (s := sorted carbon_footprint (menu_items self)) in *.
  pose proof (sorted_perm carbon_footprint (menu_items self)) as P.
  fold s in P.
  pose proof (sorted_sorted carbon_footprint _ Num) as S. fold s in S.
  pose proof (numeric_perm carbon_footprint _ _ (Permutation_sym P) Num)
    as Nums.
  assert (s <> []) as Ns.
  { intros Es. rewrite Es in P. apply Permutation_nil in P. exact (N P). }
  destruct s as [ | lo t] eqn:Es; [ congruence | ].
  destruct (exists_last Ns) as (front & hi & Elast).
  assert (is_nan (carbon_footprint lo) = false) as Hlo
    by (inversion Nums; assumption).
  assert (is_nan (carbon_footprint hi) = false) as Hhi.
  { unfold numeric in Nums. rewrite Forall_forall in Nums.
    apply Nums. rewrite Elast. apply in_or_app. right. left. reflexivity. }
  exists st, lo, (firstn 2 t), hi,
    (skipn (List.length (lo :: t) - 3) front).
  split; [ exact E | ]. split; [ rewrite Elo; reflexivity | ]. split.
  { rewrite Ehi. unfold last3. rewrite Elast at 2.
    rewrite skipn_app.
    replace (List.length (lo :: t) - 3 - List.length front)%nat with 0%nat.
    - reflexivity.
    - rewrite Elast, length_app. cbn. lia. }
  split; [ apply (Permutation_in _ P); left; reflexivity | ].
  split; [ apply (Permutation_in _ P); rewrite Elast;
           apply in_or_app; right; left; reflexivity | ].
  intros i Hi. apply (Permutation_in _ (Permutation_sym P)) in Hi. split.
  - exact (sorted_head_le carbon_footprint lo t i Hlo S Hi).
  - rewrite Elast in S, Hi.
    exact (sorted_last_ge carbon_footprint front hi Hhi S i Hi).
Qed.

Lemma report_lists_minimum_and_maximum_witness :
  exists st lo rest hi front,
    report_statistics sample_menu = Ok (Some st)
    /\ lowest_carbon st = lo :: rest
    /\ highest_carbon st = front ++ [hi]
    /\ In lo (menu_items sample_menu)
    /\ In hi (menu_items sample_menu)
    /\ forall i, In i (menu_items sample_menu) ->
                 (carbon_footprint lo <=? carbon_footprint i) = true
                 /\ (carbon_footprint i <=? carbon_footprint hi) = true.
Proof.
  apply (report_lists_minimum_and_maximum sample_menu).
  - vm_compute. discriminate.
  - vm_compute. repeat constructor.
Defined.

(** X14: sorting a menu that is already in ascending order of footprint
    (no NaN) returns it unchanged, so the HTML shows such a menu in the
    order in which the items were added; and sorting twice is sorting
    once. *)
Theorem sorted_fixes_ascending_menus :
  forall (l : list MenuItem),
    numeric carbon_footprint l ->
    (StronglySorted (key_le carbon_footprint) l ->
     sorted carbon_footprint l = l)
    /\ sorted carbon_footprint (sorted carbon_footprint l)
       = sorted carbon_footprint l.
Proof.
  intros l Num.
  assert (forall l' : list MenuItem,
             numeric carbon_footprint l' ->
             StronglySorted (key_le carbon_footprint) l' ->
             sorted carbon_footprint l' = l') as Fix.
  { intros l' N S. symmetry.
    apply (stable_sort_unique carbon_footprint l' l' N);
      [ apply Permutation_refl | exact S | reflexivity ]. }
  split; [ apply Fix, Num | ].
  apply Fix.
  - apply (numeric_perm carbon_footprint l);
      [ apply Permutation_sym, sorted_perm | exact Num ].
  - apply sorted_sorted, Num.
Qed.

Lemma sorted_fixes_ascending_menus_witness :
  sorted carbon_footprint
    (sorted carbon_footprint (menu_items sample_menu))
  = sorted carbon_footprint (menu_items sample_menu).
Proof.
  apply (sorted_fixes_ascending_menus (menu_items sample_menu)).
  vm_compute. repeat constructor.
Defined.

(** X15: the two lists of the report share no position of the sorted
    menu when it has six items or more, where the sorted menu is the
    lowest three, then the rest, then the highest three; with one to five
    items some item is in both lists, and with at most three the two
    lists are the same. *)
Theorem report_lists_overlap_below_six :
  forall (self : QRMenuSystem),
    let s := sorted carbon_footprint (menu_items self) in
    let n := List.length (menu_items self) in
    ((6 <= n)%nat ->
     exists middle, s = first3 s ++ middle ++ last3 s
                    /\ List.length middle = (n - 6)%nat)
    /\ ((1 <= n <= 5)%nat -> exists i, In i (first3 s) /\ In i (last3 s))
    /\ ((n <= 3)%nat -> first3 s = last3 s).
Proof.
  intros self s n.
  assert (List.length s = n) as L by apply sorted_length.
  clearbody s n. split; [ | split ].
  - intros H. exists (firstn (n - 6) (skipn 3 s)). split.
    + unfold first3, last3. rewrite L.
      replace (skipn (n - 3) s) with (skipn (n - 6) (skipn 3 s)).
      * rewrite firstn_skipn, firstn_skipn. reflexivity.
      * rewrite skipn_skipn. f_equal. lia.
    + rewrite length_firstn, length_skipn. lia.
  - intros H. unfold first3, last3. rewrite L.
    destruct (nth_error s (n - 3)) as [i | ] eqn:E.
    + exists i. split.
      * apply (nth_error_In (firstn 3 s) (n - 3)).
        rewrite nth_error_firstn.
        destruct (Nat.ltb_spec (n - 3) 3); [ exact E | lia ].
      * apply (nth_error_In (skipn (n - 3) s) 0).
        rewrite nth_error_skipn. rewrite Nat.add_0_r. exact E.
    + apply nth_error_None in E. lia.
  - intros H. rewrite first3_short, last3_short by lia. reflexivity.
Qed.

Lemma report_lists_overlap_below_six_witness :
  exists middle,
    sorted carbon_footprint (menu_items sample_menu)
    = first3 (sorted carbon_footprint (menu_items sample_menu))
      ++ middle ++ last3 (sorted carbon_footprint (menu_items sample_menu))
    /\ List.length middle = (List.length (menu_items sample_menu) - 6)%nat.
Proof.
  apply (report_lists_overlap_below_six sample_menu).
  vm_compute. repeat constructor.
Defined.

(** ** [main] *)

Section MainProofs.

Variable lower : str -> str.
Variable strip : str -> str.
Variable float_of_str : str -> option float.

Lemma custom_items_spec :
  forall (n : nat) (inputs : list str) (system0 system : QRMenuSystem)
         (rest : list str),
    (List.length inputs <= n)%nat ->
    custom_items lower strip float_of_str inputs system0
    = Some (system, rest) ->
    (built lower system0 -> built lower system)
    /\ restaurant_name system = restaurant_name system0
    /\ exists items consumed,
         menu_items system = menu_items system0 ++ items
         /\ Forall (fun i => name i <> []) items
         /\ inputs = consumed ++ rest
         /\ (3 * List.length items + 1 <= List.length consumed)%nat.
Proof.
  induction n as [ | n IH]; intros inputs system0 system rest Hn H.
  - destruct inputs; [ discriminate H | cbn in Hn; lia ].
  - destruct inputs as [ | line1 rest1]; [ discriminate H | ].
    cbn [custom_items] in H. cbn [List.length] in Hn.
    destruct (strip line1) as [ | c nm] eqn:En.
    + injection H as <- <-. split; [ tauto | ]. split; [ reflexivity | ].
      exists [], [line1]. rewrite app_nil_r. repeat split.
      * constructor.
      * cbn. lia.
    + destruct rest1 as [ | line2 rest2]; [ discriminate H | ].
      cbn [List.length] in Hn.
      destruct (float_of_str line2) as [price | ].
      * destruct rest2 as [ | line3 rest3]; [ discriminate H | ].
        cbn [List.length] in Hn.
        destruct (IH rest3 _ system rest ltac:(lia) H)
          as (B & R & items & consumed & E & F & Ei & Len).
        split; [ intros B0; apply B, built_add, B0 | ].
        split; [ rewrite R; reflexivity | ].
        cbn [add_menu_item snd menu_items] in E.
        rewrite <- app_assoc in E. cbn [app] in E.
        eexists. exists (line1 :: line2 :: line3 :: consumed).
        split; [ exact E | ]. split; [ | split ].
        -- constructor; [ cbn; discriminate | exact F ].
        -- rewrite Ei. reflexivity.
        -- cbn [List.length]. lia.
      * destruct (IH rest2 system0 system rest ltac:(lia) H)
          as (B & R & items & consumed & E & F & Ei & Len).
        split; [ exact B | ]. split; [ exact R | ].
        exists items, (line1 :: line2 :: consumed).
        split; [ exact E | ]. split; [ exact F | ]. split.
        -- rewrite Ei. reflexivity.
        -- cbn [List.length]. lia.
Qed.

Lemma sample_names_not_empty :
  Forall (fun e : str * float * str => fst (fst e) <> []) sample_items.
Proof. repeat constructor; discriminate. Qed.

Lemma main_menu_spec (inputs : list str) (system : QRMenuSystem) :
  main_menu lower strip float_of_str inputs = Some system ->
  built lower system
  /\ restaurant_name system <> []
  /\ Forall (fun i => name i <> []) (menu_items system).
Proof.
  destruct inputs as [ | line0 [ | line1 rest]]; try discriminate.
  cbn [main_menu].
  set (r := match strip line0 with
            | [] => lit "Green Bistro"
            | _ :: _ => strip line0
            end).
  assert (r <> []) as Hr.
  { subst r. destruct (strip line0); discriminate. }
  destruct (str_eq_dec (strip line1) (lit "2")) as [Two | Other].
  - destruct (custom_items lower strip float_of_str rest (QRMenuSystem_init r))
      as [[sys left_over] | ] eqn:E; [ | discriminate ].
    cbn. intros H. injection H as <-.
    destruct (custom_items_spec _ _ _ _ _ (Nat.le_refl _) E)
      as (B & R & items & consumed & Ei & F & _).
    split; [ apply B, built_init | ].
    split; [ rewrite R; exact Hr | ].
    rewrite Ei. exact F.
  - intros H. injection H as <-.
    split; [ apply create_sample_menu_built, built_init | ].
    destruct (add_menu_items_app lower (QRMenuSystem_init r) sample_items)
      as (E & R & _).
    change (add_menu_items lower (QRMenuSystem_init r) sample_items)
      with (create_sample_menu lower (QRMenuSystem_init r)) in E, R.
    split; [ rewrite R; exact Hr | ].
    rewrite E. cbn [QRMenuSystem_init menu_items app].
    apply Forall_map.
    eapply Forall_impl; [ | exact sample_names_not_empty ].
    intros [[nm pr] ds] H. exact H.
Qed.

End MainProofs.

(** X16: whatever the user types, a menu that [main] hands to the
    generators was built by [add_menu_item] calls only, has a restaurant
    name and item names that are not empty, and holds well-formed items;
    the entry loop keeps the items stored before it, adds one item per
    accepted entry and reads at least three lines per item plus the
    closing empty name. *)
Theorem main_builds_well_formed_menus :
  forall (lower strip : str -> str) (float_of_str : str -> option float),
    (forall (inputs : list str) (system : QRMenuSystem),
        main_menu lower strip float_of_str inputs = Some system ->
        built lower system
        /\ restaurant_name system <> []
        /\ Forall (fun i => name i <> [] /\ item_ok i) (menu_items system))
    /\ (forall (inputs : list str) (system0 system : QRMenuSystem)
               (rest : list str),
           custom_items lower strip float_of_str inputs system0
           = Some (system, rest) ->
           exists items consumed,
             menu_items system = menu_items system0 ++ items
             /\ Forall (fun i => name i <> []) items
             /\ inputs = consumed ++ rest
             /\ (3 * List.length items + 1 <= List.length consumed)%nat).
Proof.
  intros lower strip float_of_str. split.
  - intros inputs system H.
    destruct (main_menu_spec lower strip float_of_str inputs system H)
      as (B & R & F).
    split; [ exact B | ]. split; [ exact R | ].
    pose proof (built_item_ok lower system B) as W.
    rewrite Forall_forall in *. intros i Hi. split; [ apply F | apply W ];
      exact Hi.
  - intros inputs system0 system rest H.
    destruct (custom_items_spec lower strip float_of_str _ _ _ _ _
                (Nat.le_refl _) H) as (_ & _ & items & consumed & E).
    exists items, consumed. exact E.
Qed.

Lemma main_builds_well_formed_menus_witness :
  built ascii_lower sample_menu.
Proof.
  apply (proj1 (main_builds_well_formed_menus ascii_lower
                  (fun s => s) (fun _ => None))
           [lit "Green Bistro"; lit "1"] sample_menu).
  vm_compute. reflexivity.
Defined.

(** X17: when the user chooses custom items and leaves the first item
    name empty, [main] goes on with an empty menu: the HTML generator
    fails on the division and returns the empty string, as does the
    report generator by its guard, whatever the restaurant name. *)
Theorem main_with_no_custom_item :
  forall (lower strip : str -> str) (float_of_str : str -> option float)
         (line0 line1 line2 : str) (rest : list str) (filename : str)
         (written : result unit),
    strip line1 = lit "2" ->
    strip line2 = [] ->
    exists system,
      main_menu lower strip float_of_str (line0 :: line1 :: line2 :: rest)
      = Some system
      /\ menu_items system = []
      /\ html_statistics system = Raise ZeroDivisionError
      /\ generate_html_menu system filename written = []
      /\ generate_report system filename written = [].
Proof.
  intros lower strip float_of_str line0 line1 line2 rest filename written
    E1 E2.
  cbn [main_menu custom_items]. rewrite E1, E2.
  destruct (str_eq_dec (lit "2") (lit "2")) as [_ | N];
    [ | exfalso; apply N; reflexivity ].
  eexists. split; [ reflexivity | ]. repeat split.
Qed.

Lemma main_with_no_custom_item_witness :
  exists system,
    main_menu ascii_lower (fun s => s) (fun _ => None)
      [lit "Cafe"; lit "2"; []; lit "unused"] = Some system
    /\ menu_items system = []
    /\ html_statistics system = Raise ZeroDivisionError
    /\ generate_html_menu system (lit "digital_menu.html") (Ok tt) = []
    /\ generate_report system (lit "digital_menu.html") (Ok tt) = [].
Proof.
  apply (main_with_no_custom_item ascii_lower (fun s => s) (fun _ => None)
           (lit "Cafe") (lit "2") [] [lit "unused"]
           (lit "digital_menu.html") (Ok tt)).
  - reflexivity.
  - reflexivity.
Defined.

(** ** Where the flag and the stored total part *)

(** X18: the flag differs from the comparison of the stored total with
    2.0 only for bread, vegetables and cheese that are deep-fried or baked
    in the oven: there the flag is set and the stored total is exactly
    2.0. *)
Theorem eco_flag_differs_only_for_fried_or_baked_cheese_bread :
  forall (lower : str -> str) (self : CarbonCalculator) (s : str),
    let r := estimate_carbon_footprint lower self s in
    CarbonData.is_eco_friendly r <> (CarbonData.total_carbon r <? 2.0) ->
    CarbonData.is_eco_friendly r = true
    /\ CarbonData.total_carbon r = 2.0
    /\ CarbonData.ingredients r
       = [lit "bread"; lit "vegetables"; lit "cheese"]
    /\ (CarbonData.cooking_methods r = [lit "deep_fry"]
        \/ CarbonData.cooking_methods r = [lit "oven"]).
Proof.
  intros lower self s r D.
  pose proof (estimator_forall
    (fun r => Bool.eqb (CarbonData.is_eco_friendly r)
                       (CarbonData.total_carbon r <? 2.0)
              || (CarbonData.is_eco_friendly r
                  && PrimFloat.Leibniz.eqb (CarbonData.total_carbon r) 2.0
                  && same (CarbonData.ingredients r)
                          [lit "bread"; lit "vegetables"; lit "cheese"]
                  && (same (CarbonData.cooking_methods r) [lit "deep_fry"]
                      || same (CarbonData.cooking_methods r) [lit "oven"])))
    ltac:(vm_compute; reflexivity) lower self s) as H.
  cbv beta in H. fold r in H. apply orb_true_iff in H.
  destruct H as [H | H].
  - apply Bool.eqb_prop in H. contradiction.
  - rewrite !andb_true_iff, orb_true_iff, !same_eq in H.
    destruct H as (((H1 & H2) & H3) & H4).
    apply FloatAxioms.Leibniz.eqb_spec in H2. tauto.
Qed.

Lemma eco_flag_differs_only_for_fried_or_baked_cheese_bread_witness :
  CarbonData.ingredients
    (estimate_carbon_footprint ascii_lower CarbonCalculator_init
       (lit "Fried Cheese Sandwich"))
  = [lit "bread"; lit "vegetables"; lit "cheese"].
Proof.
  apply (eco_flag_differs_only_for_fried_or_baked_cheese_bread
           ascii_lower CarbonCalculator_init (lit "Fried Cheese Sandwich")).
  vm_compute. discriminate.
Defined.

(** X19: a result without a protein and without cheese, that is, one
    whose ingredients are all among pasta, rice, bread, quinoa and
    vegetables, is always eco-friendly, whatever the cooking method: its
    stored total is at most 1.84. *)
Theorem plant_dishes_without_cheese_are_eco_friendly :
  forall (lower : str -> str) (self : CarbonCalculator) (s : str),
    let r := estimate_carbon_footprint lower self s in
    (forall tag, In tag (CarbonData.ingredients r) ->
                 In tag [lit "pasta"; lit "rice"; lit "bread";
                         lit "quinoa"; lit "vegetables"]) ->
    CarbonData.is_eco_friendly r = true
    /\ (CarbonData.total_carbon r <=? 1.84) = true.
Proof.
  intros lower self s r P.
  pose proof (estimator_forall
    (fun r => implb (forallb
                       (fun tag => mem tag [lit "pasta"; lit "rice";
                                            lit "bread"; lit "quinoa";
                                            lit "vegetables"])
                       (CarbonData.ingredients r))
                    (CarbonData.is_eco_friendly r
                     && (CarbonData.total_carbon r <=? 1.84)))
    ltac:(vm_compute; reflexivity) lower self s) as H.
  cbv beta in H. fold r in H.
  assert (forallb
            (fun tag => mem tag [lit "pasta"; lit "rice"; lit "bread";
                                 lit "quinoa"; lit "vegetables"])
            (CarbonData.ingredients r) = true) as F.
  { apply forallb_forall. intros tag Ht. apply mem_In, P, Ht. }
  clearbody r. rewrite F in H. cbn [implb] in H.
  apply andb_true_iff in H. exact H.
Qed.

Lemma plant_dishes_without_cheese_are_eco_friendly_witness :
  CarbonData.is_eco_friendly
    (estimate_carbon_footprint ascii_lower CarbonCalculator_init
       (lit "Grilled Vegetable Risotto")) = true.
Proof.
  apply (plant_dishes_without_cheese_are_eco_friendly
           ascii_lower CarbonCalculator_init (lit "Grilled Vegetable Risotto")).
  vm_compute. intros tag H. tauto.
Defined.
